(** * go-pdf-extractor: a shallow embedding of the parser and of the extractor

  The development follows the layout of the repository:
  - [Go]: the fragment of the Go runtime and of the third-party libraries
    the program talks to (errors, byte strings, the collaborators taken as
    oracles of an environment, and a trace of the external calls);
  - [types], [schema], [parser], [extractor]: one module per Go package,
    each function translated from its source;
  - the properties of the specification, stated over these definitions. *)

From Stdlib Require Import ZArith List Lia Floats.PrimFloat.
From stdpp Require Import gmap strings list fin_maps.
Import ListNotations.

#[local] Set Warnings "-register-all".
#[local] Open Scope Z_scope.

(* ===================================================================== *)
(** * The Go side of the model                                            *)
(* ===================================================================== *)

Module Go.

(** Go strings are byte sequences: [string] with [String.length] as [len].
    A [[]byte] is a [list byte]; [string(b)] and [[]byte(s)] convert. *)
Abbreviation byte := Byte.byte.

Definition string_of_bytes (b : list byte) : string := String.string_of_list_byte b.
Definition bytes_of_string (s : string) : list byte := String.list_byte_of_string s.

(** The line feed, written ["\n"] in the Go sources. *)
Definition nl : string := String (Ascii.ascii_of_nat 10) EmptyString.

(** ** Errors

    [errors.New] and [fmt.Errorf]; the verbs of a format string are
    filled from the argument list ([%w] wraps an error). *)
Inductive error : Type :=
| errors_New (text : string)
| fmt_Errorf (format : string) (args : list fmt_arg)
| external_error (text : string)
with fmt_arg : Type :=
| ArgInt (n : Z)
| ArgString (s : string)
| ArgError (err : error).

Inductive Result (A : Type) : Type :=
| Ok (a : A)
| Err (err : error).
Arguments Ok {A} a.
Arguments Err {A} err.

Definition is_ok {A} (r : Result A) : bool :=
  match r with Ok _ => true | Err _ => false end.

(** ** JSON values ([interface{}] trees built from maps, slices and scalars) *)
Inductive json : Type :=
| JNull
| JBool (b : bool)
| JInt (n : Z)
| JFloat (f : float)
| JString (s : string)
| JArray (xs : list json)
| JObject (m : gmap string json).

(** A [map[string]interface{}] may be nil. *)
Definition json_of_map (m : option (gmap string json)) : json :=
  match m with
  | None => JNull
  | Some m => JObject m
  end.

(** ** strings.TrimSpace

    White space is what [unicode.IsSpace] accepts on the UTF-8 decoding of
    the string: the six ASCII spaces, U+0085, U+00A0 and the runes of
    category Z.  A rune decodes from the left (or from the right) exactly
    when its encoding is a prefix (a suffix), so trimming strips the
    encodings below. *)
Definition bytes_string (l : list nat) : string :=
  fold_right (fun n s => String (Ascii.ascii_of_nat n) s) EmptyString l.

Definition spaceEncodings : list string :=
  map bytes_string
    [ [9]; [10]; [11]; [12]; [13]; [32];
      [194; 133]; [194; 160];
      [225; 154; 128];
      [226; 128; 128]; [226; 128; 129]; [226; 128; 130]; [226; 128; 131];
      [226; 128; 132]; [226; 128; 133]; [226; 128; 134]; [226; 128; 135];
      [226; 128; 136]; [226; 128; 137]; [226; 128; 138];
      [226; 128; 168]; [226; 128; 169]; [226; 128; 175];
      [226; 129; 159];
      [227; 128; 128] ]%nat.

Fixpoint string_rev (s : string) : string :=
  match s with
  | EmptyString => EmptyString
  | String c s' => string_rev s' +:+ String c EmptyString
  end.

Fixpoint string_drop (n : nat) (s : string) : string :=
  match n, s with
  | O, _ => s
  | S n', EmptyString => EmptyString
  | S n', String _ s' => string_drop n' s'
  end.

(** The width of the white-space rune [s] starts with, if any. *)
Definition leadingSpace (encodings : list string) (s : string) : option nat :=
  String.length <$> find (fun enc => String.prefix enc s) encodings.

Fixpoint trimLeft (encodings : list string) (fuel : nat) (s : string) : string :=
  match fuel with
  | O => s
  | S fuel' =>
      match leadingSpace encodings s with
      | Some w => trimLeft encodings fuel' (string_drop w s)
      | None => s
      end
  end.

Definition strings_TrimLeft (s : string) : string :=
  trimLeft spaceEncodings (String.length s) s.

Definition strings_TrimRight (s : string) : string :=
  string_rev (trimLeft (map string_rev spaceEncodings) (String.length s) (string_rev s)).

Definition strings_TrimSpace (s : string) : string :=
  strings_TrimRight (strings_TrimLeft s).

(** ** External collaborators *)

(** A raster image, as [fitz] renders a page. *)
Record Image : Type := { img_width : Z; img_height : Z; img_pix : list byte }.

(** A [*fitz.Document]: the answers of its methods. *)
Record Document : Type := {
  doc_NumPage : Z;
  doc_Text : Z -> Result string;
  doc_Image : Z -> Result Image;
  doc_Close : Result unit
}.

(** [*pdfcpu.PDFInfo], of which the program reads the page count. *)
Record PDFInfo : Type := { PageCount : Z }.

Record HttpRequest : Type := {
  req_Method : string;
  req_URL : string;
  req_Header : gmap string string;
  req_Body : list byte
}.

Definition Header_Set (key value : string) (req : HttpRequest) : HttpRequest :=
  {| req_Method := req_Method req;
     req_URL := req_URL req;
     req_Header := <[key := value]> (req_Header req);
     req_Body := req_Body req |}.

(** [*http.Response]: the status, what [io.ReadAll] gives on the body,
    and what closing the body gives. *)
Record HttpResponse : Type := {
  StatusCode : Z;
  resp_Body : Result (list byte);
  resp_Body_Close : Result unit
}.

Definition http_StatusOK : Z := 200.

(** The anonymous struct [callOpenAI] decodes the response into. *)
Record ChatMessage : Type := { Message_Content : string }.
Record ChatChoice : Type := { Message : ChatMessage }.
Record ChatUsage : Type := { TotalTokens : Z }.
Record ChatResponse : Type := {
  Choices : list ChatChoice;
  Usage : ChatUsage;
  Response_Model : string
}.

(** The environment: every library call whose answer the program does
    not compute itself. *)
Record Env : Type := {
  os_ReadFile : string -> Result (list byte);
  gojsonschema_NewSchema : gmap string json -> Result unit;
  pdfcpu_PDFInfo : list byte -> Result (option PDFInfo);
  fitz_NewFromMemory : list byte -> Result Document;
  png_Encode : Image -> Result (list byte);
  base64_EncodeToString : list byte -> string;
  json_Marshal : json -> Result (list byte);
  url_Parse : string -> Result unit;
  http_Client_Do : HttpRequest -> Result HttpResponse;
  json_Unmarshal_response : list byte -> Result ChatResponse;
  json_Unmarshal_map : list byte -> Result (option (gmap string json))
}.

(** [http.NewRequest] fails when the URL does not parse. *)
Definition http_NewRequest (env : Env) (method url : string) (body : list byte)
  : Result HttpRequest :=
  match url_Parse env url with
  | Err err => Err err
  | Ok _ => Ok {| req_Method := method; req_URL := url;
                  req_Header := ∅; req_Body := body |}
  end.

(** ** The trace of external calls *)
Inductive event : Type :=
| EvReadFile (path : string)
| EvPDFInfo (buffer : list byte)
| EvOpenDocument (buffer : list byte)
| EvPageText (pageNum : Z)
| EvNumPage
| EvPageImage (pageNum : Z)
| EvCloseDocument
| EvHttpDo (req : HttpRequest)
| EvReadBody
| EvCloseBody
| EvPrintf (format : string) (args : list fmt_arg).

Definition is_network_call (ev : event) : bool :=
  match ev with
  | EvHttpDo _ => true
  | _ => false
  end.

(** ** Computations: the calls made so far, and a result or an error *)
Definition IO (A : Type) : Type := (list event * Result A)%type.

Definition ret {A} (a : A) : IO A := ([], Ok a).
Definition fail {A} (err : error) : IO A := ([], Err err).
Definition lift {A} (r : Result A) : IO A := ([], r).
Definition call {A} (ev : event) (r : Result A) : IO A := ([ev], r).

Definition bind {A B} (m : IO A) (k : A -> IO B) : IO B :=
  match m with
  | (t, Ok a) => (t ++ fst (k a), snd (k a))
  | (t, Err err) => (t, Err err)
  end.

(** [if err != nil { return nil, fmt.Errorf(format, err) }] *)
Definition wrap {A} (format : string) (m : IO A) : IO A :=
  match m with
  | (t, Err err) => (t, Err (fmt_Errorf format [ArgError err]))
  | (t, Ok a) => (t, Ok a)
  end.

(** The same, for a message that takes more arguments than the error. *)
Definition wrap_with {A} (mk : error -> error) (m : IO A) : IO A :=
  match m with
  | (t, Err err) => (t, Err (mk err))
  | (t, Ok a) => (t, Ok a)
  end.

(** The error is handed to the caller as a value. *)
Definition recover {A} (m : IO A) : IO (Result A) := (fst m, Ok (snd m)).

(** [defer]: the clean-up runs when the body returns, on every path. *)
Definition defer {A} (cleanup : list event) (body : IO A) : IO A :=
  (fst body ++ cleanup, snd body).

Definition trace {A} (m : IO A) : list event := fst m.
Definition result {A} (m : IO A) : Result A := snd m.

(** [buffer[lo:hi]]: a run-time panic ([None]) when the bounds are out of
    range.  The bound taken is the length; Go allows up to the capacity, so
    a slice expression that is in range here is in range there. *)
Definition go_slice (buffer : list byte) (lo hi : nat) : option (list byte) :=
  if decide (lo <= hi <= length buffer)%nat then Some (firstn (hi - lo) (skipn lo buffer))
  else None.

(** [for i := 0; i < n; i++]: the values [i] takes. *)
Definition forRange (n : Z) : list Z := map Z.of_nat (seq 0 (Z.to_nat n)).

End Go.

Export Go.

Declare Scope io_scope.
Delimit Scope io_scope with io.
Notation "x <- m ;; k" := (bind m (fun x => k))
  (at level 100, m at next level, right associativity) : io_scope.
#[local] Open Scope io_scope.

(* ===================================================================== *)
(** * package types                                                       *)
(* ===================================================================== *)

Module types.

Record ExtractorConfig : Type := {
  OpenAIAPIKey : string;
  BaseURL : string;
  Model : string;
  TextModel : string;
  VisionModel : string;
  VisionEnabled : bool;
  TextThreshold : Z;
  SystemPrompt : string
}.

Record ExtractionOptions : Type := {
  Schema : option (gmap string json);
  PDFPath : string;
  PDFBuffer : option (list byte);
  Temperature : option float;
  MaxTokens : option Z
}.

Record PdfPageImage : Type := { Page : Z; Base64 : string }.

Record ParsedPdfContent : Type := {
  Type_ : string;
  TextContent : string;
  ImageContent : list PdfPageImage
}.

Record ParsedPdf : Type := {
  Content : ParsedPdfContent;
  NumPages : Z;
  Info : gmap string json
}.

Record ExtractionResult : Type := {
  Data : option (gmap string json);
  TokensUsed : Z;
  Result_Model : string
}.

Record ParseOptions : Type := { ParseOptions_TextThreshold : Z }.

End types.

Export types.

(* ===================================================================== *)
(** * package schema                                                      *)
(* ===================================================================== *)

Module schema.

Definition ValidateSchema (env : Env) (schema : option (gmap string json))
  : option error :=
  match schema with
  | None => Some (errors_New "schema must be a non-null object")
  | Some m =>
      if decide (size m = 0%nat) then Some (errors_New "schema cannot be empty")
      else
        match gojsonschema_NewSchema env m with
        | Err err => Some (fmt_Errorf "schema validation failed: %w" [ArgError err])
        | Ok _ => None
        end
  end.

End schema.

(* ===================================================================== *)
(** * package parser                                                      *)
(* ===================================================================== *)

Module parser.

Definition defaultTextThreshold : Z := 100.

(** [isValidPdfSignature], with the panic its slice expression could raise
    made visible: [None] is a run-time panic. *)
Definition isValidPdfSignature_run (buffer : list byte) : option bool :=
  if Z.of_nat (length buffer) <? 4 then Some false
  else
    match go_slice buffer 0 4 with
    | Some signature => Some (String.eqb (string_of_bytes signature) "%PDF")
    | None => None
    end.

Definition isValidPdfSignature (buffer : list byte) : bool :=
  match isValidPdfSignature_run buffer with
  | Some valid => valid
  | None => false
  end.

Definition hasExtractableText (text : string) (threshold : Z) : bool :=
  if String.eqb text "" then false
  else
    let trimmedText := strings_TrimSpace text in
    Z.of_nat (String.length trimmedText) >=? threshold.

Definition getPageCount (env : Env) (buffer : list byte) : IO Z :=
  pdfInfo <- call (EvPDFInfo buffer) (pdfcpu_PDFInfo env buffer) ;;
  match pdfInfo with
  | Some info => if PageCount info >? 0 then ret (PageCount info) else ret 1
  | None => ret 1
  end.

(** The body of the page loop of [extractTextFromPdf]. *)
Fixpoint extractPages (doc : Document) (pages : list Z) (textBuilder : string)
  : IO string :=
  match pages with
  | [] => ret textBuilder
  | pageNum :: rest =>
      pageText <- recover (call (EvPageText pageNum) (doc_Text doc pageNum)) ;;
      match pageText with
      | Err _ => extractPages doc rest textBuilder
      | Ok pageText => extractPages doc rest (textBuilder +:+ pageText +:+ nl)
      end
  end.

Definition extractTextFromPdf (env : Env) (buffer : list byte)
  : IO (string * Z * gmap string json) :=
  count <- recover (getPageCount env buffer) ;;
  let numPages := match count with Ok n => n | Err _ => 1 end in
  opened <- recover (call (EvOpenDocument buffer) (fitz_NewFromMemory env buffer)) ;;
  match opened with
  | Err _ => ret (EmptyString, numPages, ∅)
  | Ok doc =>
      defer [EvCloseDocument]
        (text <- extractPages doc (forRange numPages) EmptyString ;;
         ret (text, numPages, ∅))
  end.

(** The body of the page loop of [convertPdfToImages]. *)
Fixpoint renderPages (env : Env) (doc : Document) (pages : list Z)
    (images : list PdfPageImage) : IO (list PdfPageImage) :=
  match pages with
  | [] => ret images
  | pageNum :: rest =>
      img <- wrap_with
               (fun err => fmt_Errorf "failed to render page %d: %w"
                             [ArgInt (pageNum + 1); ArgError err])
               (call (EvPageImage pageNum) (doc_Image doc pageNum)) ;;
      buf <- wrap_with
               (fun err => fmt_Errorf "failed to encode page %d as PNG: %w"
                             [ArgInt (pageNum + 1); ArgError err])
               (lift (png_Encode env img)) ;;
      let base64Str := base64_EncodeToString env buf in
      renderPages env doc rest
        (images ++ [ {| Page := pageNum + 1; Base64 := base64Str |} ])
  end.

(** What the deferred closure of [convertPdfToImages] does. *)
Definition closeDocument (doc : Document) : list event :=
  match doc_Close doc with
  | Ok _ => [EvCloseDocument]
  | Err err =>
      [EvCloseDocument;
       EvPrintf ("failed to close PDF document: %v" +:+ nl) [ArgError err]]
  end.

Definition convertPdfToImages (env : Env) (buffer : list byte)
  : IO (list PdfPageImage) :=
  doc <- wrap "failed to open PDF: %w"
           (call (EvOpenDocument buffer) (fitz_NewFromMemory env buffer)) ;;
  defer (closeDocument doc)
    (numPages <- call EvNumPage (Ok (doc_NumPage doc)) ;;
     if numPages =? 0 then fail (errors_New "PDF conversion produced no images")
     else renderPages env doc (forRange numPages) []).

(** Lines 70-73 of [ParsePdfFromBuffer]: the threshold of the call. *)
Definition resolveThreshold (options : option ParseOptions) : Z :=
  match options with
  | Some o =>
      if ParseOptions_TextThreshold o >? 0 then ParseOptions_TextThreshold o
      else defaultTextThreshold
  | None => defaultTextThreshold
  end.

Definition ParsePdfFromBuffer (env : Env) (buffer : list byte)
    (options : option ParseOptions) : IO ParsedPdf :=
  if negb (isValidPdfSignature buffer) then
    fail (errors_New "invalid PDF: file does not contain PDF signature")
  else
    let threshold := resolveThreshold options in
    extracted <- wrap "failed to parse PDF: %w" (extractTextFromPdf env buffer) ;;
    let '(text, numPages, info) := extracted in
    if hasExtractableText text threshold then
      ret {| Content := {| Type_ := "text"; TextContent := text; ImageContent := [] |};
             NumPages := numPages; Info := info |}
    else
      images <- wrap "failed to convert PDF to images: %w"
                  (convertPdfToImages env buffer) ;;
      ret {| Content := {| Type_ := "images"; TextContent := EmptyString;
                           ImageContent := images |};
             NumPages := numPages; Info := info |}.

Definition ParsePdfFromPath (env : Env) (pdfPath : string)
    (options : option ParseOptions) : IO ParsedPdf :=
  data <- wrap "failed to read PDF from path: %w"
            (call (EvReadFile pdfPath) (os_ReadFile env pdfPath)) ;;
  ParsePdfFromBuffer env data options.

(** The dynamic types [ValidatePdf] switches on. *)
Inductive PdfInput : Type :=
| InputString (v : string)
| InputBytes (v : list byte)
| InputOther.

Definition ValidatePdf (env : Env) (input : PdfInput) : IO bool :=
  match input with
  | InputString v =>
      data <- recover (call (EvReadFile v) (os_ReadFile env v)) ;;
      match data with
      | Err _ => ret false
      | Ok data => ret (isValidPdfSignature data)
      end
  | InputBytes v => ret (isValidPdfSignature v)
  | InputOther => ret false
  end.

End parser.

(* ===================================================================== *)
(** * package extractor                                                   *)
(* ===================================================================== *)

Module extractor.

Definition defaultModel : string := "gpt-4o-mini".
Definition defaultBaseURL : string := "https://api.openai.com/v1".
Definition defaultSystemPrompt : string :=
  "You are a helpful assistant that extracts structured data from text. Extract the requested information accurately from the provided text.".
Definition defaultVisionEnabled : bool := true.
Definition defaultTextThreshold : Z := 100.

(** [&http.Client{}]: the zero client; its [Do] is [http_Client_Do]. *)
Inductive http_Client : Type := http_Client_zero.

Record Extractor : Type := {
  client : http_Client;
  apiKey : string;
  baseURL : string;
  model : string;
  textModel : string;
  visionModel : string;
  config : ExtractorConfig;
  systemPrompt : string
}.

(** Assignments to the fields of the (copied) configuration. *)
Definition set_Model (v : string) (c : ExtractorConfig) : ExtractorConfig :=
  {| OpenAIAPIKey := OpenAIAPIKey c; BaseURL := BaseURL c; Model := v;
     TextModel := TextModel c; VisionModel := VisionModel c;
     VisionEnabled := VisionEnabled c; TextThreshold := TextThreshold c;
     SystemPrompt := SystemPrompt c |}.

Definition set_BaseURL (v : string) (c : ExtractorConfig) : ExtractorConfig :=
  {| OpenAIAPIKey := OpenAIAPIKey c; BaseURL := v; Model := Model c;
     TextModel := TextModel c; VisionModel := VisionModel c;
     VisionEnabled := VisionEnabled c; TextThreshold := TextThreshold c;
     SystemPrompt := SystemPrompt c |}.

Definition set_TextThreshold (v : Z) (c : ExtractorConfig) : ExtractorConfig :=
  {| OpenAIAPIKey := OpenAIAPIKey c; BaseURL := BaseURL c; Model := Model c;
     TextModel := TextModel c; VisionModel := VisionModel c;
     VisionEnabled := VisionEnabled c; TextThreshold := v;
     SystemPrompt := SystemPrompt c |}.

Definition New (config : ExtractorConfig) : Result Extractor :=
  if String.eqb (OpenAIAPIKey config) "" then
    Err (errors_New "OpenAI API key is required")
  else
    let config :=
      if String.eqb (Model config) "" then set_Model defaultModel config else config in
    let config :=
      if String.eqb (BaseURL config) "" then set_BaseURL defaultBaseURL config else config in
    let config :=
      if TextThreshold config =? 0 then set_TextThreshold defaultTextThreshold config
      else config in
    let systemPrompt := SystemPrompt config in
    let systemPrompt :=
      if String.eqb systemPrompt "" then defaultSystemPrompt else systemPrompt in
    let textModel := TextModel config in
    let textModel := if String.eqb textModel "" then Model config else textModel in
    let visionModel := VisionModel config in
    let visionModel := if String.eqb visionModel "" then Model config else visionModel in
    Ok {| client := http_Client_zero;
          apiKey := OpenAIAPIKey config;
          baseURL := BaseURL config;
          model := Model config;
          textModel := textModel;
          visionModel := visionModel;
          config := config;
          systemPrompt := systemPrompt |}.

Definition GetModel (e : Extractor) : string := model e.
Definition GetTextModel (e : Extractor) : string := textModel e.
Definition GetVisionModel (e : Extractor) : string := visionModel e.

(** What the deferred closure of [callOpenAI] does. *)
Definition closeBody (resp : HttpResponse) : list event :=
  match resp_Body_Close resp with
  | Ok _ => [EvCloseBody]
  | Err err =>
      [EvCloseBody;
       EvPrintf ("failed to close response body: %v" +:+ nl) [ArgError err]]
  end.

(** The request [callOpenAI] sends for the serialized body [jsonData]. *)
Definition newRequest (env : Env) (e : Extractor) (jsonData : list byte)
  : Result HttpRequest :=
  let url := baseURL e +:+ "/chat/completions" in
  match http_NewRequest env "POST" url jsonData with
  | Err err => Err err
  | Ok req =>
      let req := Header_Set "Content-Type" "application/json" req in
      let req := Header_Set "Authorization" ("Bearer " +:+ apiKey e) req in
      Ok req
  end.

Definition callOpenAI (env : Env) (e : Extractor) (requestBody : gmap string json)
  : IO ExtractionResult :=
  jsonData <- wrap "failed to marshal request: %w"
                (lift (json_Marshal env (JObject requestBody))) ;;
  req <- wrap "failed to create request: %w" (lift (newRequest env e jsonData)) ;;
  resp <- wrap "failed to call OpenAI API: %w"
            (call (EvHttpDo req) (http_Client_Do env req)) ;;
  defer (closeBody resp)
    (body <- wrap "failed to read response: %w" (call EvReadBody (resp_Body resp)) ;;
     if negb (StatusCode resp =? http_StatusOK) then
       fail (fmt_Errorf "OpenAI API error (status %d): %s"
               [ArgInt (StatusCode resp); ArgString (string_of_bytes body)])
     else
       response <- wrap "failed to parse response: %w"
                     (lift (json_Unmarshal_response env body)) ;;
       match Choices response with
       | [] => fail (errors_New "no response from OpenAI API")
       | choice :: _ =>
           if String.eqb (Message_Content (Message choice)) "" then
             fail (errors_New "no response from OpenAI API")
           else
             extractedData <-
               wrap "failed to parse extracted data: %w"
                 (lift (json_Unmarshal_map env
                          (bytes_of_string (Message_Content (Message choice))))) ;;
             ret {| Data := extractedData;
                    TokensUsed := TotalTokens (Usage response);
                    Result_Model := Response_Model response |}
       end).

(** The [response_format] entry both request bodies carry. *)
Definition responseFormat (schemaData : option (gmap string json)) : json :=
  JObject {[ "type" := JString "json_schema";
             "json_schema" :=
               JObject {[ "name" := JString "extracted_data";
                          "strict" := JBool true;
                          "schema" := json_of_map schemaData ]} ]}.

(** The optional parameters, set on the request body. *)
Definition addOptionalParameters (options : ExtractionOptions)
    (requestBody : gmap string json) : gmap string json :=
  let requestBody :=
    match Temperature options with
    | Some t => <["temperature" := JFloat t]> requestBody
    | None => <["temperature" := JFloat 0%float]> requestBody
    end in
  match MaxTokens options with
  | Some n => <["max_tokens" := JInt n]> requestBody
  | None => requestBody
  end.

(** The [messages] and the [requestBody] of [extractFromText]. *)
Definition textMessages (e : Extractor) (text : string) : list (gmap string json) :=
  let messages := [] in
  let messages :=
    if negb (String.eqb (systemPrompt e) "") then
      messages ++ [ {[ "role" := JString "system";
                       "content" := JString (systemPrompt e) ]} ]
    else messages in
  messages ++
    [ {[ "role" := JString "user";
         "content" :=
           JString ("Extract the following information from this text:"
                    +:+ nl +:+ nl +:+ text) ]} ].

Definition textRequestBody (e : Extractor) (text : string)
    (schemaData : option (gmap string json)) (options : ExtractionOptions)
  : gmap string json :=
  let requestBody : gmap string json :=
    {[ "model" := JString (textModel e);
       "messages" := JArray (JObject <$> textMessages e text);
       "response_format" := responseFormat schemaData ]} in
  addOptionalParameters options requestBody.

Definition extractFromText (env : Env) (e : Extractor) (text : string)
    (schemaData : option (gmap string json)) (options : ExtractionOptions)
  : IO ExtractionResult :=
  callOpenAI env e (textRequestBody e text schemaData options).

(** The [content], the [messages] and the [requestBody] of [extractFromImages]. *)
Definition visionContent (images : list PdfPageImage) : list (gmap string json) :=
  let content :=
    [ {[ "type" := JString "text";
         "text" := JString "Extract the following structured information from these document pages:" ]} ] in
  fold_left
    (fun content img =>
       content ++
         [ {[ "type" := JString "image_url";
              "image_url" :=
                JObject {[ "url" := JString ("data:image/png;base64," +:+ Base64 img) ]} ]} ])
    images content.

Definition visionMessages (e : Extractor) (images : list PdfPageImage)
  : list (gmap string json) :=
  let content := visionContent images in
  let messages := [] in
  let messages :=
    if negb (String.eqb (systemPrompt e) "") then
      messages ++ [ {[ "role" := JString "system";
                       "content" := JString (systemPrompt e) ]} ]
    else messages in
  messages ++
    [ {[ "role" := JString "user";
         "content" := JArray (JObject <$> content) ]} ].

Definition visionRequestBody (e : Extractor) (images : list PdfPageImage)
    (schemaData : option (gmap string json)) (options : ExtractionOptions)
  : gmap string json :=
  let requestBody : gmap string json :=
    {[ "model" := JString (visionModel e);
       "messages" := JArray (JObject <$> visionMessages e images);
       "response_format" := responseFormat schemaData ]} in
  addOptionalParameters options requestBody.

Definition extractFromImages (env : Env) (e : Extractor) (images : list PdfPageImage)
    (schemaData : option (gmap string json)) (options : ExtractionOptions)
  : IO ExtractionResult :=
  if negb (VisionEnabled (config e)) then
    fail (errors_New "PDF contains no extractable text and vision mode is disabled")
  else
    callOpenAI env e (visionRequestBody e images schemaData options).

(** A nil slice reads as the empty one. *)
Definition slice_bytes (b : option (list byte)) : list byte := default [] b.

(** The [parseOptions] of [Extract]. *)
Definition parseOptionsOf (e : Extractor) : option ParseOptions :=
  Some {| ParseOptions_TextThreshold := TextThreshold (config e) |}.

(** Lines 180-184 of [Extract]: the source that is parsed. *)
Definition parseSource (env : Env) (options : ExtractionOptions)
    (parseOptions : option ParseOptions) : IO ParsedPdf :=
  if negb (String.eqb (PDFPath options) "") then
    parser.ParsePdfFromPath env (PDFPath options) parseOptions
  else
    parser.ParsePdfFromBuffer env (slice_bytes (PDFBuffer options)) parseOptions.

Definition Extract (env : Env) (e : Extractor) (options : ExtractionOptions)
  : IO ExtractionResult :=
  if String.eqb (PDFPath options) "" && bool_decide (PDFBuffer options = None) then
    fail (errors_New "either PDFPath or PDFBuffer must be provided")
  else
    match schema.ValidateSchema env (Schema options) with
    | Some err => fail (fmt_Errorf "invalid JSON schema: %w" [ArgError err])
    | None =>
        let parseOptions := parseOptionsOf e in
        parsedPdf <-
          wrap "failed to parse PDF: %w" (parseSource env options parseOptions) ;;
        if String.eqb (Type_ (Content parsedPdf)) "text" then
          extractFromText env e (TextContent (Content parsedPdf)) (Schema options) options
        else
          extractFromImages env e (ImageContent (Content parsedPdf)) (Schema options)
            options
    end.

End extractor.

Export schema parser extractor.

(* ===================================================================== *)
(** * The vocabulary of the specification                                 *)
(* ===================================================================== *)

Module Spec.

(** The failures of the specification's taxonomy, as the error values the
    code returns for them. *)
Definition ConfigurationError : error := errors_New "OpenAI API key is required".
Definition MissingSource : error :=
  errors_New "either PDFPath or PDFBuffer must be provided".
Definition InvalidPdf : error :=
  errors_New "invalid PDF: file does not contain PDF signature".
Definition VisionDisabled : error :=
  errors_New "PDF contains no extractable text and vision mode is disabled".
Definition RemoteError (status : Z) (body : list byte) : error :=
  fmt_Errorf "OpenAI API error (status %d): %s"
    [ArgInt status; ArgString (string_of_bytes body)].
Definition EmptyCompletion : error := errors_New "no response from OpenAI API".
Definition MalformedCompletion (cause : error) : error :=
  fmt_Errorf "failed to parse extracted data: %w" [ArgError cause].

(** The four bytes a PDF starts with. *)
Definition pdfSignature : list byte := bytes_of_string "%PDF".

(** The two modes a parsed document selects. *)
Definition isTextMode (parsed : ParsedPdf) : bool :=
  String.eqb (Type_ (Content parsed)) "text".

(** The messages of a request payload, and the ones with role "system". *)
Definition requestMessages (requestBody : gmap string json) : list json :=
  match requestBody !! "messages" with
  | Some (JArray messages) => messages
  | _ => []
  end.

Definition isSystemMessage (message : json) : bool :=
  match message with
  | JObject m =>
      match m !! "role" with
      | Some (JString role) => String.eqb role "system"
      | _ => false
      end
  | _ => false
  end.

Definition hasSystemMessage (requestBody : gmap string json) : bool :=
  existsb isSystemMessage (requestMessages requestBody).

Definition systemMessage (prompt : string) : json :=
  JObject {[ "role" := JString "system"; "content" := JString prompt ]}.

(** The texts of the pages whose extraction call succeeds, in page order. *)
Definition successfulPageTexts (doc : Document) (pages : list Z) : list string :=
  omap (fun pageNum =>
          match doc_Text doc pageNum with
          | Ok pageText => Some pageText
          | Err _ => None
          end) pages.

(** The characters of a UTF-8 text: its code points, that is its bytes
    that do not continue a character (the bytes 10xxxxxx do). *)
Definition is_continuation_byte (c : Ascii.ascii) : bool :=
  (128 <=? Ascii.nat_of_ascii c)%nat && (Ascii.nat_of_ascii c <? 192)%nat.

Fixpoint characters (s : string) : nat :=
  match s with
  | EmptyString => 0%nat
  | String c s' => ((if is_continuation_byte c then 0 else 1) + characters s')%nat
  end.

(** Texts separated by a newline: one between two consecutive texts. *)
Fixpoint joinLines (texts : list string) : string :=
  match texts with
  | [] => EmptyString
  | [t] => t
  | t :: rest => t +:+ nl +:+ joinLines rest
  end.

(** Texts each followed by a newline. *)
Definition unlines (texts : list string) : string :=
  fold_right (fun t acc => t +:+ nl +:+ acc) EmptyString texts.

(** The page count [extractTextFromPdf] works with: the probe's answer,
    1 when the probe fails or reports nothing positive. *)
Definition probedPageCount (env : Env) (buffer : list byte) : Z :=
  match pdfcpu_PDFInfo env buffer with
  | Ok (Some info) => if PageCount info >? 0 then PageCount info else 1
  | Ok None => 1
  | Err _ => 1
  end.

(** A trace without a call to the completion endpoint. *)
Definition network_free (t : list event) : Prop :=
  Forall (fun ev => is_network_call ev = false) t.

(** [Extract] reaches vision mode: the request names a source, its schema
    is accepted, and the parser returns a document that is not of type
    "text". *)
Definition resolvesToVision (env : Env) (e : Extractor) (options : ExtractionOptions)
  : Prop :=
  (PDFPath options <> EmptyString \/ PDFBuffer options <> None)
  /\ ValidateSchema env (Schema options) = None
  /\ exists parsed,
       result (parseSource env options (parseOptionsOf e)) = Ok parsed
       /\ isTextMode parsed = false.

(** The completion client receives the response [resp] with body [body]:
    the payload serializes, the request is created, the transport returns
    [resp] and its body reads as [body]. *)
Definition receives (env : Env) (e : Extractor) (requestBody : gmap string json)
    (resp : HttpResponse) (body : list byte) : Prop :=
  exists jsonData req,
    json_Marshal env (JObject requestBody) = Ok jsonData
    /\ newRequest env e jsonData = Ok req
    /\ http_Client_Do env req = Ok resp
    /\ resp_Body resp = Ok body.

(** A success status in the sense of the specification, whose remote
    errors are the "non-2xx" answers. *)
Definition isSuccessStatus (status : Z) : bool := (200 <=? status) && (status <? 300).

(** The failure on a body that does not decode as the response envelope. *)
Definition ResponseParseError (cause : error) : error :=
  fmt_Errorf "failed to parse response: %w" [ArgError cause].

(** The first-message content of an envelope, if it has a choice. *)
Definition firstContent (response : ChatResponse) : option string :=
  match Choices response with
  | [] => None
  | choice :: _ => Some (Message_Content (Message choice))
  end.

(** A request with the path (the buffer) taken away. *)
Definition withoutPath (options : ExtractionOptions) : ExtractionOptions :=
  {| Schema := Schema options; PDFPath := EmptyString;
     PDFBuffer := PDFBuffer options; Temperature := Temperature options;
     MaxTokens := MaxTokens options |}.

Definition withoutBuffer (options : ExtractionOptions) : ExtractionOptions :=
  {| Schema := Schema options; PDFPath := PDFPath options;
     PDFBuffer := None; Temperature := Temperature options;
     MaxTokens := MaxTokens options |}.

End Spec.

Export Spec.

(* ===================================================================== *)
(** * A canned environment, for running the model                         *)
(* ===================================================================== *)

Module Stub.

Definition blankImage : Image := {| img_width := 1; img_height := 1; img_pix := [] |}.

(** A document with the given per-page answers of [Text]. *)
Definition document (pages : list (Result string)) : Document :=
  {| doc_NumPage := Z.of_nat (length pages);
     doc_Text := fun pageNum =>
       if pageNum <? 0 then Err (external_error "page out of range")
       else nth (Z.to_nat pageNum) pages (Err (external_error "page out of range"));
     doc_Image := fun _ => Ok blankImage;
     doc_Close := Ok tt |}.

Definition completion : ChatResponse :=
  {| Choices := [ {| Message := {| Message_Content := "{}" |} |} ];
     Usage := {| TotalTokens := 42 |};
     Response_Model := "m1" |}.

Definition response (status : Z) : HttpResponse :=
  {| StatusCode := status; resp_Body := Ok []; resp_Body_Close := Ok tt |}.

(** Files [files], every document reading as [pages], the endpoint
    answering [status] with the envelope [envelope], whose content decodes
    to [data]. *)
Definition env (files : list (string * list byte)) (pages : list (Result string))
    (status : Z) (envelope : Result ChatResponse)
    (data : Result (option (gmap string json))) : Env :=
  {| os_ReadFile := fun path =>
       match find (fun f => String.eqb (fst f) path) files with
       | Some f => Ok (snd f)
       | None => Err (external_error "no such file or directory")
       end;
     gojsonschema_NewSchema := fun _ => Ok tt;
     pdfcpu_PDFInfo := fun _ => Ok (Some {| PageCount := Z.of_nat (length pages) |});
     fitz_NewFromMemory := fun _ => Ok (document pages);
     png_Encode := fun img => Ok (img_pix img);
     base64_EncodeToString := string_of_bytes;
     json_Marshal := fun _ => Ok [];
     url_Parse := fun _ => Ok tt;
     http_Client_Do := fun _ => Ok (response status);
     json_Unmarshal_response := fun _ => envelope;
     json_Unmarshal_map := fun _ => data |}.

Definition apiKeyOnly : ExtractorConfig :=
  {| OpenAIAPIKey := "sk-test"; BaseURL := ""; Model := ""; TextModel := "";
     VisionModel := ""; VisionEnabled := false; TextThreshold := 0;
     SystemPrompt := "" |}.

Definition onlyModel : ExtractorConfig :=
  {| OpenAIAPIKey := "sk-test"; BaseURL := ""; Model := "gpt-4o"; TextModel := "";
     VisionModel := ""; VisionEnabled := true; TextThreshold := 0;
     SystemPrompt := "" |}.

(** The extractor a configuration is accepted as ([apiKeyOnly] when it is
    rejected). *)
Definition extractorOf (cfg : ExtractorConfig) : Extractor :=
  match New cfg with
  | Ok e => e
  | Err _ =>
      {| client := http_Client_zero; apiKey := ""; baseURL := ""; model := "";
         textModel := ""; visionModel := ""; config := cfg; systemPrompt := "" |}
  end.

Definition objectSchema : option (gmap string json) :=
  Some {[ "type" := JString "object" ]}.

Definition pdfBytes : list byte := bytes_of_string "%PDF-1.4".

Definition shortText : string := "scan".

(** Thirty-four times the ideograph U+4E2D, three bytes each in UTF-8. *)
Definition cjkText : string :=
  bytes_string (List.concat (List.repeat [228; 184; 173]%nat 34)).

Definition nonPositiveOptions : ParseOptions := {| ParseOptions_TextThreshold := -5 |}.

Definition negativeThreshold : ExtractorConfig :=
  {| OpenAIAPIKey := "sk-test"; BaseURL := ""; Model := ""; TextModel := "";
     VisionModel := ""; VisionEnabled := true; TextThreshold := -3;
     SystemPrompt := "" |}.

Definition visionOff : ExtractorConfig :=
  {| OpenAIAPIKey := "sk-test"; BaseURL := ""; Model := "gpt-4o"; TextModel := "";
     VisionModel := ""; VisionEnabled := false; TextThreshold := 100;
     SystemPrompt := "Read the document." |}.

(** A request giving the buffer only, and one giving a path as well. *)
Definition bufferOnly : ExtractionOptions :=
  {| Schema := objectSchema; PDFPath := ""; PDFBuffer := Some pdfBytes;
     Temperature := None; MaxTokens := None |}.

Definition bothSources : ExtractionOptions :=
  {| Schema := objectSchema; PDFPath := "invoice.pdf"; PDFBuffer := Some pdfBytes;
     Temperature := None; MaxTokens := None |}.

Definition longText : string :=
  "Invoice 2024-001 issued to ACME Corporation on the first of March for the amount of 1250 euros, payable within thirty days.".

Definition created : HttpResponse :=
  {| StatusCode := 201; resp_Body := Ok (bytes_of_string "{}"); resp_Body_Close := Ok tt |}.

(** The endpoint answers 201 with a well-formed completion. *)
Definition createdWorld : Env :=
  {| os_ReadFile := fun _ => Err (external_error "no such file or directory");
     gojsonschema_NewSchema := fun _ => Ok tt;
     pdfcpu_PDFInfo := fun _ => Ok (Some {| PageCount := 1 |});
     fitz_NewFromMemory := fun _ => Ok (document [Ok longText]);
     png_Encode := fun img => Ok (img_pix img);
     base64_EncodeToString := string_of_bytes;
     json_Marshal := fun _ => Ok [];
     url_Parse := fun _ => Ok tt;
     http_Client_Do := fun _ => Ok created;
     json_Unmarshal_response := fun _ => Ok completion;
     json_Unmarshal_map := fun _ => Ok (Some ∅) |}.

(** The endpoint answers 200 with a body that is not an envelope. *)
Definition garbledWorld : Env :=
  env [] [Ok longText] 200 (Err (external_error "invalid character 'o' in literal"))
    (Ok (Some ∅)).

(** The payload of a text-mode request. *)
Definition payload : gmap string json :=
  textRequestBody (extractorOf onlyModel) longText objectSchema bufferOnly.

(** A three-page document whose second page does not extract. *)
Definition threePages : list (Result string) :=
  [Ok "alpha"%string; Err (external_error "cannot extract page"); Ok "gamma"%string].

Definition skipWorld : Env := env [] threePages 200 (Ok completion) (Ok (Some ∅)).

(** No file on disk; every document is a one-page scan (a text PDF). *)
Definition scanWorld : Env := env [] [Ok shortText] 200 (Ok completion) (Ok (Some ∅)).
Definition textWorld : Env := env [] [Ok longText] 200 (Ok completion) (Ok (Some ∅)).

End Stub.

(* ===================================================================== *)
(** * Observations on traces, payloads and rendered pages                 *)
(* ===================================================================== *)

Module Observe.

(** How many calls of a kind a trace holds. *)
Definition calls (kind : event -> bool) (t : list event) : nat :=
  length (List.filter kind t).

Definition is_open_document (ev : event) : bool :=
  match ev with EvOpenDocument _ => true | _ => false end.

Definition is_close_document (ev : event) : bool :=
  match ev with EvCloseDocument => true | _ => false end.

Definition is_close_body (ev : event) : bool :=
  match ev with EvCloseBody => true | _ => false end.

Definition is_page_image (ev : event) : bool :=
  match ev with EvPageImage _ => true | _ => false end.

(** The content blocks of a vision request. *)
Definition instructionBlock : gmap string json :=
  {[ "type" := JString "text";
     "text" := JString "Extract the following structured information from these document pages:" ]}.

Definition imageBlock (img : PdfPageImage) : gmap string json :=
  {[ "type" := JString "image_url";
     "image_url" :=
       JObject {[ "url" := JString ("data:image/png;base64," +:+ Base64 img) ]} ]}.

(** The response format of a payload: the caller's schema as a strict
    structured-output contract. *)
Definition structuredOutput (schemaData : option (gmap string json)) : json :=
  JObject
    {[ "type" := JString "json_schema";
       "json_schema" :=
         JObject
           {[ "name" := JString "extracted_data";
              "strict" := JBool true;
              "schema" :=
                match schemaData with
                | Some m => JObject m
                | None => JNull
                end ]} ]}.

(** The user messages of the two modes. *)
Definition userTextMessage (text : string) : json :=
  JObject {[ "role" := JString "user";
             "content" :=
               JString ("Extract the following information from this text:"
                        +:+ nl +:+ nl +:+ text) ]}.

Definition userVisionMessage (images : list PdfPageImage) : json :=
  JObject {[ "role" := JString "user";
             "content" := JArray (JObject <$> (instructionBlock :: (imageBlock <$> images))) ]}.

(** One page of [convertPdfToImages]: rendered, encoded as PNG, in base64. *)
Definition renderedPage (env : Env) (doc : Document) (pageNum : Z) : Result PdfPageImage :=
  match doc_Image doc pageNum with
  | Err err =>
      Err (fmt_Errorf "failed to render page %d: %w" [ArgInt (pageNum + 1); ArgError err])
  | Ok img =>
      match png_Encode env img with
      | Err err =>
          Err (fmt_Errorf "failed to encode page %d as PNG: %w"
                 [ArgInt (pageNum + 1); ArgError err])
      | Ok buf => Ok {| Page := pageNum + 1; Base64 := base64_EncodeToString env buf |}
      end
  end.

(** The pages of a range, rendered in order up to the first failure. *)
Fixpoint renderedPages (env : Env) (doc : Document) (pages : list Z)
  : Result (list PdfPageImage) :=
  match pages with
  | [] => Ok []
  | pageNum :: rest =>
      match renderedPage env doc pageNum with
      | Err err => Err err
      | Ok img =>
          match renderedPages env doc rest with
          | Err err => Err err
          | Ok images => Ok (img :: images)
          end
      end
  end.

(** The pages of a range that are asked for: up to the first failure, the
    failing page included. *)
Fixpoint attemptedPages (env : Env) (doc : Document) (pages : list Z) : list Z :=
  match pages with
  | [] => []
  | pageNum :: rest =>
      pageNum ::
        match renderedPage env doc pageNum with
        | Err _ => []
        | Ok _ => attemptedPages env doc rest
        end
  end.

(** The request [callOpenAI] sends for a payload, when it gets to send one. *)
Definition requestFor (env : Env) (e : Extractor) (requestBody : gmap string json)
  : Result HttpRequest :=
  match json_Marshal env (JObject requestBody) with
  | Err err => Err (fmt_Errorf "failed to marshal request: %w" [ArgError err])
  | Ok jsonData =>
      match newRequest env e jsonData with
      | Err err => Err (fmt_Errorf "failed to create request: %w" [ArgError err])
      | Ok req => Ok req
      end
  end.

(** The first test of [Extract]: the request names no source. *)
Definition sourceMissing (options : ExtractionOptions) : bool :=
  String.eqb (PDFPath options) "" && bool_decide (PDFBuffer options = None).

(** The request that gives the bytes [data] as its buffer, and no path. *)
Definition withBuffer (data : list byte) (options : ExtractionOptions) : ExtractionOptions :=
  {| Schema := Schema options; PDFPath := EmptyString; PDFBuffer := Some data;
     Temperature := Temperature options; MaxTokens := MaxTokens options |}.

(** Canned environments for the properties below. *)

(** The file [invoice.pdf] is on disk and is a text PDF. *)
Definition diskWorld : Env :=
  Stub.env [("invoice.pdf"%string, Stub.pdfBytes)] [Ok Stub.longText] 200
    (Ok Stub.completion) (Ok (Some ∅)).

(** The PDF libraries cannot open the buffer, nor count its pages. *)
Definition brokenWorld : Env :=
  {| os_ReadFile := fun _ => Err (external_error "no such file or directory");
     gojsonschema_NewSchema := fun _ => Ok tt;
     pdfcpu_PDFInfo := fun _ => Err (external_error "pdfcpu: malformed xref");
     fitz_NewFromMemory := fun _ => Err (external_error "fitz: cannot open document");
     png_Encode := fun img => Ok (img_pix img);
     base64_EncodeToString := string_of_bytes;
     json_Marshal := fun _ => Err (external_error "json: unsupported value");
     url_Parse := fun _ => Ok tt;
     http_Client_Do := fun _ => Err (external_error "dial tcp: connection refused");
     json_Unmarshal_response := fun _ => Ok Stub.completion;
     json_Unmarshal_map := fun _ => Ok (Some ∅) |}.

(** The page count cannot be probed; the document has three pages. *)
Definition unprobedWorld : Env :=
  {| os_ReadFile := fun _ => Err (external_error "no such file or directory");
     gojsonschema_NewSchema := fun _ => Ok tt;
     pdfcpu_PDFInfo := fun _ => Err (external_error "pdfcpu: malformed xref");
     fitz_NewFromMemory := fun _ => Ok (Stub.document Stub.threePages);
     png_Encode := fun img => Ok (img_pix img);
     base64_EncodeToString := string_of_bytes;
     json_Marshal := fun _ => Ok [];
     url_Parse := fun _ => Ok tt;
     http_Client_Do := fun _ => Err (external_error "dial tcp: connection refused");
     json_Unmarshal_response := fun _ => Ok Stub.completion;
     json_Unmarshal_map := fun _ => Ok (Some ∅) |}.

(** A three-page scan whose second page does not render. *)
Definition tornDocument : Document :=
  {| doc_NumPage := 3;
     doc_Text := fun _ => Ok EmptyString;
     doc_Image := fun pageNum =>
       if pageNum =? 1 then Err (external_error "fitz: cannot render page")
       else Ok Stub.blankImage;
     doc_Close := Ok tt |}.

Definition tornWorld : Env :=
  {| os_ReadFile := fun _ => Err (external_error "no such file or directory");
     gojsonschema_NewSchema := fun _ => Ok tt;
     pdfcpu_PDFInfo := fun _ => Ok (Some {| PageCount := 3 |});
     fitz_NewFromMemory := fun _ => Ok tornDocument;
     png_Encode := fun img => Ok (img_pix img);
     base64_EncodeToString := string_of_bytes;
     json_Marshal := fun _ => Ok [];
     url_Parse := fun _ => Ok tt;
     http_Client_Do := fun _ => Ok (Stub.response 200);
     json_Unmarshal_response := fun _ => Ok Stub.completion;
     json_Unmarshal_map := fun _ => Ok (Some ∅) |}.

(** A request without a source, and one whose schema is empty. *)
Definition noSource : ExtractionOptions :=
  {| Schema := Stub.objectSchema; PDFPath := ""; PDFBuffer := None;
     Temperature := None; MaxTokens := None |}.

Definition emptySchema : ExtractionOptions :=
  {| Schema := Some ∅; PDFPath := ""; PDFBuffer := Some Stub.pdfBytes;
     Temperature := None; MaxTokens := None |}.

(** A request that sets both optional parameters. *)
Definition tuned : ExtractionOptions :=
  {| Schema := Stub.objectSchema; PDFPath := ""; PDFBuffer := Some Stub.pdfBytes;
     Temperature := Some 1%float; MaxTokens := Some 2000 |}.

(** A request that names the file on disk. *)
Definition fromDisk : ExtractionOptions :=
  {| Schema := Stub.objectSchema; PDFPath := "invoice.pdf"; PDFBuffer := None;
     Temperature := None; MaxTokens := None |}.

(** One page image. *)
Definition onePage : PdfPageImage := {| Page := 1; Base64 := "QUJD" |}.

(** A buffer that is not a PDF. *)
Definition notPdf : ExtractionOptions :=
  {| Schema := Stub.objectSchema; PDFPath := "";
     PDFBuffer := Some (bytes_of_string "NOT A PDF");
     Temperature := None; MaxTokens := None |}.

End Observe.

Export Observe.

(* ===================================================================== *)
(** * Reasoning about computations                                        *)
(* ===================================================================== *)

Section IOFacts.

Context {A B : Type}.

Lemma bind_trace (m : IO A) (k : A -> IO B) :
  trace (bind m k)
  = trace m ++ match result m with Ok a => trace (k a) | Err _ => [] end.
Proof.
  destruct m as [t [a | err]]; simpl; [reflexivity | now rewrite app_nil_r].
Qed.

Lemma bind_result (m : IO A) (k : A -> IO B) :
  result (bind m k)
  = match result m with Ok a => result (k a) | Err err => Err err end.
Proof. destruct m as [t [a | err]]; reflexivity. Qed.

Lemma bind_ok (t : list event) (a : A) (k : A -> IO B) :
  bind (t, Ok a) k = (t ++ trace (k a), result (k a)).
Proof. reflexivity. Qed.

Lemma wrap_trace (format : string) (m : IO A) : trace (wrap format m) = trace m.
Proof. destruct m as [t [a | err]]; reflexivity. Qed.

Lemma wrap_result (format : string) (m : IO A) :
  result (wrap format m)
  = match result m with
    | Ok a => Ok a
    | Err err => Err (fmt_Errorf format [ArgError err])
    end.
Proof. destruct m as [t [a | err]]; reflexivity. Qed.

Lemma wrap_with_trace (mk : error -> error) (m : IO A) :
  trace (wrap_with mk m) = trace m.
Proof. destruct m as [t [a | err]]; reflexivity. Qed.

(** The first call of a computation is the first call of what it starts with. *)
Lemma bind_first (ev : event) (m : IO A) (k : A -> IO B) :
  head (trace m) = Some ev -> head (trace (bind m k)) = Some ev.
Proof.
  rewrite bind_trace. destruct (trace m); [discriminate | trivial].
Qed.

Lemma wrap_first (ev : event) (format : string) (m : IO A) :
  head (trace m) = Some ev -> head (trace (wrap format m)) = Some ev.
Proof. now rewrite wrap_trace. Qed.

Lemma recover_first (ev : event) (m : IO A) :
  head (trace m) = Some ev -> head (trace (recover m)) = Some ev.
Proof. trivial. Qed.

End IOFacts.

(** Splitting a computation on its result. *)
Ltac io_case m :=
  let t := fresh "t" in
  let r := fresh "r" in
  let E := fresh "E" in
  destruct m as [t [r | r]] eqn:E.

(* ===================================================================== *)
(** * Construction: what [New] resolves                                   *)
(* ===================================================================== *)

Lemma eqb_empty_false (s : string) : s <> EmptyString -> String.eqb s "" = false.
Proof. intros H. now apply String.eqb_neq. Qed.

(** [New] accepts exactly the configurations with a credential. *)
Lemma New_accepts (cfg : ExtractorConfig) :
  OpenAIAPIKey cfg <> EmptyString <-> exists e, New cfg = Ok e.
Proof.
  unfold New. destruct (String.eqb_spec (OpenAIAPIKey cfg) "") as [-> | Hne].
  - split; [congruence | intros [e He]; discriminate].
  - split; [eauto | auto].
Qed.

(** The fields of a constructed extractor, from the configuration given. *)
Lemma New_fields (cfg : ExtractorConfig) (e : Extractor) :
  New cfg = Ok e ->
  model e = (if String.eqb (Model cfg) "" then defaultModel else Model cfg)
  /\ textModel e = (if String.eqb (TextModel cfg) "" then model e else TextModel cfg)
  /\ visionModel e = (if String.eqb (VisionModel cfg) "" then model e else VisionModel cfg)
  /\ systemPrompt e
     = (if String.eqb (SystemPrompt cfg) "" then defaultSystemPrompt else SystemPrompt cfg)
  /\ VisionEnabled (config e) = VisionEnabled cfg
  /\ TextThreshold (config e)
     = (if TextThreshold cfg =? 0 then extractor.defaultTextThreshold
        else TextThreshold cfg).
Proof.
  unfold New. destruct (String.eqb (OpenAIAPIKey cfg) ""); [discriminate |].
  intros [= <-]; simpl.
  destruct (String.eqb (Model cfg) ""); simpl;
    destruct (String.eqb (BaseURL cfg) ""); simpl;
    destruct (TextThreshold cfg =? 0); simpl; repeat split; reflexivity.
Qed.

(** C8: for a configuration accepted by [New], with only [Model] set both
    [GetTextModel] and [GetVisionModel] are [Model]; [TextModel] (respectively
    [VisionModel]), when also set, is the model of its own mode only, the
    other mode still falling back to [Model]. *)
Theorem New_model_fallback (cfg : ExtractorConfig) (e : Extractor) :
  New cfg = Ok e ->
  Model cfg <> EmptyString ->
  (TextModel cfg = EmptyString -> VisionModel cfg = EmptyString ->
     GetTextModel e = Model cfg /\ GetVisionModel e = Model cfg)
  /\ (TextModel cfg <> EmptyString ->
        GetTextModel e = TextModel cfg
        /\ (VisionModel cfg = EmptyString -> GetVisionModel e = Model cfg))
  /\ (VisionModel cfg <> EmptyString ->
        GetVisionModel e = VisionModel cfg
        /\ (TextModel cfg = EmptyString -> GetTextModel e = Model cfg)).
Proof.
  intros HN HM. destruct (New_fields _ _ HN) as (Hm & Ht & Hv & _).
  unfold GetTextModel, GetVisionModel. rewrite Ht, Hv, Hm.
  rewrite (eqb_empty_false _ HM).
  repeat split.
  - now rewrite H.
  - now rewrite H0.
  - now rewrite (eqb_empty_false _ H).
  - intros ->. reflexivity.
  - now rewrite (eqb_empty_false _ H).
  - intros ->. reflexivity.
Qed.

Lemma New_model_fallback_witness :
  GetTextModel (Stub.extractorOf Stub.onlyModel) = "gpt-4o"
  /\ GetVisionModel (Stub.extractorOf Stub.onlyModel) = "gpt-4o".
Proof.
  destruct (New_model_fallback Stub.onlyModel (Stub.extractorOf Stub.onlyModel))
    as [H _]; [reflexivity | discriminate |].
  exact (H eq_refl eq_refl).
Defined.

(* ===================================================================== *)
(** * The mode selector                                                   *)
(* ===================================================================== *)

Lemma TrimSpace_empty : strings_TrimSpace "" = EmptyString.
Proof. reflexivity. Qed.

(** C5 as the specification states it fails: a text of thirty-four
    ideographs has nothing to trim and thirty-four characters, fewer than the
    threshold 100, yet it is 102 bytes long and the selector chooses text
    mode. *)
Lemma trimmed_characters_counterexample :
  strings_TrimSpace Stub.cjkText = Stub.cjkText
  /\ characters (strings_TrimSpace Stub.cjkText) = 34%nat
  /\ (Z.of_nat (characters (strings_TrimSpace Stub.cjkText)) <? 100) = true
  /\ String.length (strings_TrimSpace Stub.cjkText) = 102%nat
  /\ hasExtractableText Stub.cjkText 100 = true.
Proof. repeat split; vm_compute; reflexivity. Qed.

(** On a text of ASCII bytes the two measures agree. *)
Lemma characters_ascii (s : string) :
  Forall (fun c => (Ascii.nat_of_ascii c < 128)%nat) (String.list_ascii_of_string s) ->
  characters s = String.length s.
Proof.
  induction s as [| c s IH]; [reflexivity |].
  cbn [String.list_ascii_of_string characters String.length]. intros H.
  apply Forall_cons in H as [Hc Hs]. rewrite (IH Hs). unfold is_continuation_byte.
  destruct (Nat.leb_spec 128 (Ascii.nat_of_ascii c)); [lia | reflexivity].
Qed.

(** C5, amended: for a positive threshold, text mode is chosen exactly when the
    whitespace-trimmed text has at least [threshold] bytes (the boundary
    included), and vision mode exactly when it is shorter, the empty trimmed
    text among them. *)
Theorem hasExtractableText_iff (text : string) (threshold : Z) :
  0 < threshold ->
  (hasExtractableText text threshold = true
   <-> threshold <= Z.of_nat (String.length (strings_TrimSpace text)))
  /\ (hasExtractableText text threshold = false
      <-> Z.of_nat (String.length (strings_TrimSpace text)) < threshold).
Proof.
  intros Hpos. unfold hasExtractableText.
  destruct (String.eqb_spec text "") as [-> | Hne].
  - rewrite TrimSpace_empty. simpl. split; split; intros; try lia; try congruence.
  - rewrite Z.geb_leb. split.
    + apply Z.leb_le.
    + rewrite Z.leb_gt. reflexivity.
Qed.

Lemma hasExtractableText_iff_witness :
  hasExtractableText "  abc  " 3 = true /\ hasExtractableText "  abc  " 4 = false.
Proof.
  split.
  - apply (hasExtractableText_iff "  abc  " 3); [lia | vm_compute; discriminate].
  - apply (hasExtractableText_iff "  abc  " 4); [lia | vm_compute; reflexivity].
Defined.

(* ===================================================================== *)
(** * The signature gate                                                  *)
(* ===================================================================== *)

Lemma string_of_bytes_inj (l l' : list byte) :
  string_of_bytes l = string_of_bytes l' -> l = l'.
Proof.
  intros H. apply (f_equal bytes_of_string) in H. unfold bytes_of_string, string_of_bytes in H.
  now rewrite !String.list_byte_of_string_of_list_byte in H.
Qed.

Lemma firstn_signature_length (buffer : list byte) :
  firstn 4 buffer = pdfSignature -> (4 <= length buffer)%nat.
Proof.
  intros H. apply (f_equal (@length byte)) in H. rewrite length_firstn in H.
  change (length pdfSignature) with 4%nat in H. lia.
Qed.

(** The check never panics: the slice expression is reached with four
    bytes at least. *)
Lemma isValidPdfSignature_total (buffer : list byte) :
  isValidPdfSignature_run buffer
  = Some (if Z.of_nat (length buffer) <? 4 then false
          else String.eqb (string_of_bytes (firstn 4 buffer)) "%PDF").
Proof.
  unfold isValidPdfSignature_run, go_slice.
  destruct (Z.ltb_spec (Z.of_nat (length buffer)) 4) as [Hlt | Hge]; [reflexivity |].
  destruct (decide (0 <= 4 <= length buffer)%nat) as [_ | Hout]; [reflexivity | lia].
Qed.

(** The check succeeds exactly on the buffers whose first four bytes are
    the signature. *)
Lemma isValidPdfSignature_spec (buffer : list byte) :
  isValidPdfSignature buffer = true <-> firstn 4 buffer = pdfSignature.
Proof.
  unfold isValidPdfSignature. rewrite isValidPdfSignature_total.
  destruct (Z.ltb_spec (Z.of_nat (length buffer)) 4) as [Hlt | Hge].
  - split; [discriminate |]. intros H. apply firstn_signature_length in H. lia.
  - rewrite String.eqb_eq. split.
    + intros H. apply string_of_bytes_inj. exact H.
    + intros ->. reflexivity.
Qed.

Lemma isValidPdfSignature_false (buffer : list byte) :
  (length buffer < 4)%nat \/ firstn 4 buffer <> pdfSignature ->
  isValidPdfSignature buffer = false.
Proof.
  intros H. destruct (isValidPdfSignature buffer) eqn:E; [| reflexivity].
  apply isValidPdfSignature_spec in E. destruct H as [H | H]; [| contradiction].
  apply firstn_signature_length in E. lia.
Qed.

(** Past the gate, every failure of [ParsePdfFromBuffer] is a wrapped one. *)
Lemma ParsePdfFromBuffer_past_gate (env : Env) (buffer : list byte)
    (options : option ParseOptions) :
  isValidPdfSignature buffer = true ->
  head (trace (ParsePdfFromBuffer env buffer options)) = Some (EvPDFInfo buffer)
  /\ result (ParsePdfFromBuffer env buffer options) <> Err InvalidPdf.
Proof.
  intros Hsig. unfold ParsePdfFromBuffer. rewrite Hsig. simpl negb. cbv iota.
  split.
  - apply bind_first, wrap_first. unfold extractTextFromPdf, getPageCount.
    apply bind_first, recover_first, bind_first. reflexivity.
  - rewrite bind_result, wrap_result.
    destruct (result (extractTextFromPdf env buffer)) as [[[text numPages] info] | err];
      [| discriminate].
    destruct (hasExtractableText text (resolveThreshold options)); [discriminate |].
    rewrite bind_result, wrap_result.
    destruct (result (convertPdfToImages env buffer)); discriminate.
Qed.

(** C6: a buffer shorter than four bytes, or not starting with [%PDF], is
    reported invalid by the signature check and rejected by the parser with
    the invalid-PDF error before any call to the PDF libraries; the check
    answers on every buffer, short and empty ones included, without a panic;
    a buffer whose first four bytes are [%PDF] passes the gate. *)
Theorem signature_gate (env : Env) (buffer : list byte) (options : option ParseOptions) :
  isValidPdfSignature_run buffer = Some (isValidPdfSignature buffer)
  /\ ((length buffer < 4)%nat \/ firstn 4 buffer <> pdfSignature ->
     isValidPdfSignature buffer = false
     /\ ParsePdfFromBuffer env buffer options = ([], Err InvalidPdf)
     /\ ValidatePdf env (InputBytes buffer) = ([], Ok false))
  /\ (firstn 4 buffer = pdfSignature ->
        isValidPdfSignature buffer = true
        /\ ValidatePdf env (InputBytes buffer) = ([], Ok true)
        /\ head (trace (ParsePdfFromBuffer env buffer options)) = Some (EvPDFInfo buffer)
        /\ result (ParsePdfFromBuffer env buffer options) <> Err InvalidPdf).
Proof.
  split; [| split].
  - unfold isValidPdfSignature. now rewrite isValidPdfSignature_total.
  - intros H. apply isValidPdfSignature_false in H.
    unfold ParsePdfFromBuffer, ValidatePdf. rewrite H. repeat split.
  - intros H. apply isValidPdfSignature_spec in H.
    unfold ValidatePdf. rewrite H. repeat split;
      now apply ParsePdfFromBuffer_past_gate.
Qed.

Lemma signature_gate_witness :
  (isValidPdfSignature [] = false
   /\ ParsePdfFromBuffer (Stub.env [] [] 200 (Ok Stub.completion) (Ok None)) [] None
      = ([], Err InvalidPdf)
   /\ ValidatePdf (Stub.env [] [] 200 (Ok Stub.completion) (Ok None)) (InputBytes [])
      = ([], Ok false))
  /\ isValidPdfSignature Stub.pdfBytes = true.
Proof.
  split.
  - apply (signature_gate (Stub.env [] [] 200 (Ok Stub.completion) (Ok None)) [] None).
    left. simpl. lia.
  - apply (proj2 (proj2 (signature_gate (Stub.env [] [] 200 (Ok Stub.completion) (Ok None))
                           Stub.pdfBytes None))).
    reflexivity.
Defined.

(* ===================================================================== *)
(** * The text-sufficiency threshold                                      *)
(* ===================================================================== *)

(** The parser reads its options through [resolveThreshold] only. *)
Lemma ParsePdfFromBuffer_threshold (env : Env) (buffer : list byte)
    (options options' : option ParseOptions) :
  resolveThreshold options = resolveThreshold options' ->
  ParsePdfFromBuffer env buffer options = ParsePdfFromBuffer env buffer options'.
Proof. intros H. unfold ParsePdfFromBuffer. now rewrite H. Qed.

Lemma ParsePdfFromPath_threshold (env : Env) (pdfPath : string)
    (options options' : option ParseOptions) :
  resolveThreshold options = resolveThreshold options' ->
  ParsePdfFromPath env pdfPath options = ParsePdfFromPath env pdfPath options'.
Proof.
  intros H. unfold ParsePdfFromPath, call.
  destruct (os_ReadFile env pdfPath) as [data | err]; simpl; [| reflexivity].
  now rewrite (ParsePdfFromBuffer_threshold env data options options' H).
Qed.

Lemma resolveThreshold_nonpositive (o : ParseOptions) :
  ParseOptions_TextThreshold o <= 0 -> resolveThreshold (Some o) = 100.
Proof.
  intros H. unfold resolveThreshold.
  destruct (Z.gtb_spec (ParseOptions_TextThreshold o) 0); [lia | reflexivity].
Qed.

Lemma resolveThreshold_positive (options : option ParseOptions) :
  0 < resolveThreshold options.
Proof.
  unfold resolveThreshold, parser.defaultTextThreshold. destruct options as [o |]; [| lia].
  destruct (Z.gtb_spec (ParseOptions_TextThreshold o) 0); lia.
Qed.

(** C10: parse options whose threshold is zero or negative, and a
    configuration whose threshold is zero, give the mode decision the default
    threshold 100: the parser behaves as with 100.  A negative threshold in
    the configuration is accepted by [New] and has the same effect. *)
Theorem threshold_defaults_to_100 (env : Env) :
  (forall (o : ParseOptions) (buffer : list byte),
      ParseOptions_TextThreshold o <= 0 ->
      resolveThreshold (Some o) = 100
      /\ ParsePdfFromBuffer env buffer (Some o)
         = ParsePdfFromBuffer env buffer (Some {| ParseOptions_TextThreshold := 100 |})
      /\ ParsePdfFromBuffer env buffer (Some o) = ParsePdfFromBuffer env buffer None)
  /\ (forall (cfg : ExtractorConfig) (e : Extractor),
        New cfg = Ok e ->
        TextThreshold cfg = 0 ->
        TextThreshold (config e) = 100 /\ resolveThreshold (parseOptionsOf e) = 100)
  /\ (forall cfg : ExtractorConfig,
        OpenAIAPIKey cfg <> EmptyString ->
        TextThreshold cfg < 0 ->
        exists e,
          New cfg = Ok e
          /\ resolveThreshold (parseOptionsOf e) = 100
          /\ forall (buffer : list byte) (pdfPath : string),
               ParsePdfFromBuffer env buffer (parseOptionsOf e)
               = ParsePdfFromBuffer env buffer (Some {| ParseOptions_TextThreshold := 100 |})
               /\ ParsePdfFromPath env pdfPath (parseOptionsOf e)
                  = ParsePdfFromPath env pdfPath
                      (Some {| ParseOptions_TextThreshold := 100 |})).
Proof.
  split; [| split].
  - intros o buffer Ho. pose proof (resolveThreshold_nonpositive o Ho) as Hr.
    repeat split; [exact Hr | |]; apply ParsePdfFromBuffer_threshold; now rewrite Hr.
  - intros cfg e HN H0. destruct (New_fields _ _ HN) as (_ & _ & _ & _ & _ & Ht).
    rewrite H0 in Ht. simpl in Ht. unfold parseOptionsOf. rewrite Ht. split; reflexivity.
  - intros cfg Hkey Hneg. destruct (proj1 (New_accepts cfg) Hkey) as [e HN].
    exists e. split; [exact HN |].
    destruct (New_fields _ _ HN) as (_ & _ & _ & _ & _ & Ht).
    destruct (Z.eqb_spec (TextThreshold cfg) 0) as [H0 | _]; [lia |].
    assert (Hr : resolveThreshold (parseOptionsOf e) = 100).
    { apply resolveThreshold_nonpositive. simpl. lia. }
    split; [exact Hr |]. intros buffer pdfPath.
    split; [apply ParsePdfFromBuffer_threshold | apply ParsePdfFromPath_threshold];
      now rewrite Hr.
Qed.

Lemma threshold_defaults_to_100_witness :
  resolveThreshold (Some Stub.nonPositiveOptions) = 100
  /\ TextThreshold (config (Stub.extractorOf Stub.apiKeyOnly)) = 100
  /\ exists e, New Stub.negativeThreshold = Ok e /\ resolveThreshold (parseOptionsOf e) = 100.
Proof.
  destruct (threshold_defaults_to_100 Stub.scanWorld) as (H1 & H2 & H3).
  split; [| split].
  - apply (H1 Stub.nonPositiveOptions Stub.pdfBytes). simpl. lia.
  - apply (H2 Stub.apiKeyOnly (Stub.extractorOf Stub.apiKeyOnly)); reflexivity.
  - destruct (H3 Stub.negativeThreshold) as (e & HN & Hr & _);
      [discriminate | simpl; lia |].
    exists e. split; assumption.
Defined.

(* ===================================================================== *)
(** * The vision flag                                                     *)
(* ===================================================================== *)

Lemma extractFromImages_disabled (env : Env) (e : Extractor) (images : list PdfPageImage)
    (schemaData : option (gmap string json)) (options : ExtractionOptions) :
  VisionEnabled (config e) = false ->
  extractFromImages env e images schemaData options = ([], Err VisionDisabled).
Proof. intros H. unfold extractFromImages. now rewrite H. Qed.

(** C1 (the code at the failing input): for the configuration that gives
    the API key and nothing else, [New] succeeds and leaves the vision flag at
    the zero value [false], so the vision path fails with [VisionDisabled]
    whatever the pages are, and so does [Extract] on a scanned document. *)
Theorem vision_flag_default_not_applied (env : Env) (images : list PdfPageImage)
    (schemaData : option (gmap string json)) (options : ExtractionOptions) :
  New Stub.apiKeyOnly = Ok (Stub.extractorOf Stub.apiKeyOnly)
  /\ VisionEnabled (config (Stub.extractorOf Stub.apiKeyOnly)) = false
  /\ extractFromImages env (Stub.extractorOf Stub.apiKeyOnly) images schemaData options
     = ([], Err VisionDisabled)
  /\ result (Extract Stub.scanWorld (Stub.extractorOf Stub.apiKeyOnly) Stub.bufferOnly)
     = Err VisionDisabled.
Proof.
  split; [reflexivity |]. split; [reflexivity |]. split.
  - now apply extractFromImages_disabled.
  - vm_compute. reflexivity.
Qed.

(* ===================================================================== *)
(** * The system message                                                  *)
(* ===================================================================== *)

Lemma addOptionalParameters_messages (options : ExtractionOptions)
    (requestBody : gmap string json) :
  addOptionalParameters options requestBody !! "messages" = requestBody !! "messages".
Proof.
  unfold addOptionalParameters.
  destruct (Temperature options), (MaxTokens options);
    repeat (rewrite lookup_insert_ne by discriminate); reflexivity.
Qed.

Lemma textRequestBody_messages (e : Extractor) (text : string)
    (schemaData : option (gmap string json)) (options : ExtractionOptions) :
  requestMessages (textRequestBody e text schemaData options)
  = JObject <$> textMessages e text.
Proof.
  unfold requestMessages, textRequestBody. rewrite addOptionalParameters_messages.
  rewrite lookup_insert_ne by discriminate. now rewrite lookup_insert_eq.
Qed.

Lemma visionRequestBody_messages (e : Extractor) (images : list PdfPageImage)
    (schemaData : option (gmap string json)) (options : ExtractionOptions) :
  requestMessages (visionRequestBody e images schemaData options)
  = JObject <$> visionMessages e images.
Proof.
  unfold requestMessages, visionRequestBody. rewrite addOptionalParameters_messages.
  rewrite lookup_insert_ne by discriminate. now rewrite lookup_insert_eq.
Qed.

Lemma isSystemMessage_system (prompt : string) :
  isSystemMessage (systemMessage prompt) = true.
Proof.
  unfold isSystemMessage, systemMessage. now rewrite lookup_insert_eq.
Qed.

Lemma isSystemMessage_user (content : json) :
  isSystemMessage (JObject {[ "role" := JString "user"; "content" := content ]}) = false.
Proof.
  unfold isSystemMessage. now rewrite lookup_insert_eq.
Qed.

(** The messages of the two modes, by the resolved system instruction. *)
Lemma textMessages_cases (e : Extractor) (text : string) :
  exists user,
    isSystemMessage user = false
    /\ JObject <$> textMessages e text
       = (if String.eqb (systemPrompt e) "" then [user]
          else [systemMessage (systemPrompt e); user]).
Proof.
  eexists. split; [apply isSystemMessage_user |].
  unfold textMessages. destruct (String.eqb (systemPrompt e) ""); reflexivity.
Qed.

Lemma visionMessages_cases (e : Extractor) (images : list PdfPageImage) :
  exists user,
    isSystemMessage user = false
    /\ JObject <$> visionMessages e images
       = (if String.eqb (systemPrompt e) "" then [user]
          else [systemMessage (systemPrompt e); user]).
Proof.
  eexists. split; [apply isSystemMessage_user |].
  unfold visionMessages. destruct (String.eqb (systemPrompt e) ""); reflexivity.
Qed.

(** A payload carries a system message exactly when the resolved system
    instruction of the extractor is not empty. *)
Lemma hasSystemMessage_iff (e : Extractor) (text : string) (images : list PdfPageImage)
    (schemaData : option (gmap string json)) (options : ExtractionOptions) :
  (hasSystemMessage (textRequestBody e text schemaData options) = true
   <-> systemPrompt e <> EmptyString)
  /\ (hasSystemMessage (visionRequestBody e images schemaData options) = true
      <-> systemPrompt e <> EmptyString).
Proof.
  unfold hasSystemMessage.
  rewrite textRequestBody_messages, visionRequestBody_messages.
  destruct (textMessages_cases e text) as (u & Hu & ->).
  destruct (visionMessages_cases e images) as (v & Hv & ->).
  destruct (String.eqb_spec (systemPrompt e) "") as [Heq | Hne]; cbn [existsb].
  - rewrite Hu, Hv. simpl. split; split; intros H; try discriminate; contradiction.
  - rewrite isSystemMessage_system. simpl. split; split; auto.
Qed.

(** The system instruction [New] resolves is never empty. *)
Lemma New_systemPrompt_nonempty (cfg : ExtractorConfig) (e : Extractor) :
  New cfg = Ok e -> systemPrompt e <> EmptyString.
Proof.
  intros HN. destruct (New_fields _ _ HN) as (_ & _ & _ & Hs & _). rewrite Hs.
  destruct (String.eqb_spec (SystemPrompt cfg) ""); [discriminate | assumption].
Qed.

(** C3 as the specification states it fails: the configuration that gives
    the API key only has an empty system prompt, and both payloads of its
    extractor carry a system message. *)
Lemma empty_system_prompt_counterexample :
  SystemPrompt Stub.apiKeyOnly = EmptyString
  /\ New Stub.apiKeyOnly = Ok (Stub.extractorOf Stub.apiKeyOnly)
  /\ hasSystemMessage
       (textRequestBody (Stub.extractorOf Stub.apiKeyOnly) Stub.longText
          Stub.objectSchema Stub.bufferOnly) = true
  /\ hasSystemMessage
       (visionRequestBody (Stub.extractorOf Stub.apiKeyOnly) [] Stub.objectSchema
          Stub.bufferOnly) = true.
Proof. repeat split; vm_compute; reflexivity. Qed.

(** C3, amended: an extractor constructed by [New] from an empty system
    prompt has the default instruction as its system instruction, and every
    payload it builds, in text mode or in vision mode, starts with the system
    message carrying that default; for any extractor, a payload carries a
    system message exactly when the resolved system instruction is not
    empty. *)
Theorem empty_system_prompt_defaults (cfg : ExtractorConfig) (e : Extractor)
    (text : string) (images : list PdfPageImage)
    (schemaData : option (gmap string json)) (options : ExtractionOptions) :
  New cfg = Ok e ->
  SystemPrompt cfg = EmptyString ->
  systemPrompt e = defaultSystemPrompt
  /\ head (requestMessages (textRequestBody e text schemaData options))
     = Some (systemMessage defaultSystemPrompt)
  /\ head (requestMessages (visionRequestBody e images schemaData options))
     = Some (systemMessage defaultSystemPrompt)
  /\ (forall e' : Extractor,
        (hasSystemMessage (textRequestBody e' text schemaData options) = true
         <-> systemPrompt e' <> EmptyString)
        /\ (hasSystemMessage (visionRequestBody e' images schemaData options) = true
            <-> systemPrompt e' <> EmptyString)).
Proof.
  intros HN Hempty.
  assert (Hs : systemPrompt e = defaultSystemPrompt).
  { destruct (New_fields _ _ HN) as (_ & _ & _ & Hs & _). now rewrite Hs, Hempty. }
  split; [exact Hs |].
  rewrite textRequestBody_messages, visionRequestBody_messages.
  destruct (textMessages_cases e text) as (u & _ & ->).
  destruct (visionMessages_cases e images) as (v & _ & ->).
  rewrite Hs. repeat split; try reflexivity.
  - apply (hasSystemMessage_iff e' text images schemaData options).
  - apply (hasSystemMessage_iff e' text images schemaData options).
  - apply (hasSystemMessage_iff e' text images schemaData options).
  - apply (hasSystemMessage_iff e' text images schemaData options).
Qed.

Lemma empty_system_prompt_defaults_witness :
  systemPrompt (Stub.extractorOf Stub.apiKeyOnly) = defaultSystemPrompt
  /\ head (requestMessages
             (textRequestBody (Stub.extractorOf Stub.apiKeyOnly) Stub.longText
                Stub.objectSchema Stub.bufferOnly))
     = Some (systemMessage defaultSystemPrompt).
Proof.
  destruct (empty_system_prompt_defaults Stub.apiKeyOnly
              (Stub.extractorOf Stub.apiKeyOnly) Stub.longText []
              Stub.objectSchema Stub.bufferOnly eq_refl eq_refl) as (H1 & H2 & _).
  split; assumption.
Defined.

(* ===================================================================== *)
(** * The parser makes no network call                                    *)
(* ===================================================================== *)

Section NetworkFree.

Context {A B : Type}.

Lemma bind_network_free (m : IO A) (k : A -> IO B) :
  network_free (trace m) ->
  (forall a, network_free (trace (k a))) ->
  network_free (trace (bind m k)).
Proof.
  intros Hm Hk. rewrite bind_trace. apply Forall_app. split; [exact Hm |].
  destruct (result m); [apply Hk | constructor].
Qed.

Lemma wrap_network_free (format : string) (m : IO A) :
  network_free (trace m) -> network_free (trace (wrap format m)).
Proof. now rewrite wrap_trace. Qed.

Lemma defer_network_free (cleanup : list event) (m : IO A) :
  network_free cleanup -> network_free (trace m) ->
  network_free (trace (defer cleanup m)).
Proof. intros Hc Hm. unfold defer, trace. simpl. apply Forall_app. now split. Qed.

End NetworkFree.

Lemma extractPages_network_free (doc : Document) (pages : list Z) (textBuilder : string) :
  network_free (trace (extractPages doc pages textBuilder)).
Proof.
  revert textBuilder. induction pages as [| pageNum rest IH]; intros textBuilder.
  - constructor.
  - cbn [extractPages]. apply bind_network_free.
    + repeat constructor.
    + intros [pageText | err]; apply IH.
Qed.

Lemma renderPages_network_free (env : Env) (doc : Document) (pages : list Z)
    (images : list PdfPageImage) :
  network_free (trace (renderPages env doc pages images)).
Proof.
  revert images. induction pages as [| pageNum rest IH]; intros images.
  - constructor.
  - cbn [renderPages]. apply bind_network_free.
    + rewrite wrap_with_trace. repeat constructor.
    + intros img. apply bind_network_free.
      * rewrite wrap_with_trace. constructor.
      * intros buf. apply IH.
Qed.

Lemma extractTextFromPdf_network_free (env : Env) (buffer : list byte) :
  network_free (trace (extractTextFromPdf env buffer)).
Proof.
  unfold extractTextFromPdf. apply bind_network_free.
  - unfold recover, getPageCount. cbn [fst trace]. apply bind_network_free.
    + repeat constructor.
    + intros [info |]; [destruct (PageCount info >? 0) |]; constructor.
  - intros count. apply bind_network_free; [repeat constructor |].
    intros [doc | err]; [| constructor].
    apply defer_network_free; [repeat constructor |].
    apply bind_network_free; [apply extractPages_network_free | intros; constructor].
Qed.

Lemma convertPdfToImages_network_free (env : Env) (buffer : list byte) :
  network_free (trace (convertPdfToImages env buffer)).
Proof.
  unfold convertPdfToImages. apply bind_network_free.
  - apply wrap_network_free. repeat constructor.
  - intros doc. apply defer_network_free.
    + unfold closeDocument. destruct (doc_Close doc); repeat constructor.
    + apply bind_network_free; [repeat constructor |].
      intros numPages. destruct (numPages =? 0); [constructor |].
      apply renderPages_network_free.
Qed.

Lemma ParsePdfFromBuffer_network_free (env : Env) (buffer : list byte)
    (options : option ParseOptions) :
  network_free (trace (ParsePdfFromBuffer env buffer options)).
Proof.
  unfold ParsePdfFromBuffer. destruct (negb (isValidPdfSignature buffer)); [constructor |].
  apply bind_network_free.
  - apply wrap_network_free, extractTextFromPdf_network_free.
  - intros [[text numPages] info].
    destruct (hasExtractableText text (resolveThreshold options)); [constructor |].
    apply bind_network_free; [| intros; constructor].
    apply wrap_network_free, convertPdfToImages_network_free.
Qed.

Lemma ParsePdfFromPath_network_free (env : Env) (pdfPath : string)
    (options : option ParseOptions) :
  network_free (trace (ParsePdfFromPath env pdfPath options)).
Proof.
  unfold ParsePdfFromPath. apply bind_network_free.
  - apply wrap_network_free. repeat constructor.
  - intros data. apply ParsePdfFromBuffer_network_free.
Qed.

Lemma parseSource_network_free (env : Env) (options : ExtractionOptions)
    (parseOptions : option ParseOptions) :
  network_free (trace (parseSource env options parseOptions)).
Proof.
  unfold parseSource. destruct (negb (String.eqb (PDFPath options) ""));
    [apply ParsePdfFromPath_network_free | apply ParsePdfFromBuffer_network_free].
Qed.

(** [Extract], once its two validations pass. *)
Lemma Extract_validated (env : Env) (e : Extractor) (options : ExtractionOptions) :
  PDFPath options <> EmptyString \/ PDFBuffer options <> None ->
  ValidateSchema env (Schema options) = None ->
  Extract env e options
  = (parsedPdf <- wrap "failed to parse PDF: %w"
                    (parseSource env options (parseOptionsOf e)) ;;
     if String.eqb (Type_ (Content parsedPdf)) "text" then
       extractFromText env e (TextContent (Content parsedPdf)) (Schema options) options
     else
       extractFromImages env e (ImageContent (Content parsedPdf)) (Schema options)
         options).
Proof.
  intros Hsrc Hschema. unfold Extract. rewrite Hschema.
  destruct (String.eqb_spec (PDFPath options) "") as [Hp | Hp]; [| reflexivity].
  destruct Hsrc as [Hsrc | Hsrc]; [contradiction |].
  rewrite bool_decide_eq_false_2 by exact Hsrc. reflexivity.
Qed.

(** C4: with the vision flag off, an extraction that reaches vision mode
    fails with [VisionDisabled]; the request builder fails on its first
    statement, whatever the page images are and before any content block is
    built, and the whole extraction issues no call to the completion
    endpoint. *)
Theorem vision_disabled_fails_without_network (env : Env) (e : Extractor)
    (options : ExtractionOptions) :
  VisionEnabled (config e) = false ->
  resolvesToVision env e options ->
  result (Extract env e options) = Err VisionDisabled
  /\ network_free (trace (Extract env e options))
  /\ trace (Extract env e options) = trace (parseSource env options (parseOptionsOf e))
  /\ forall (images : list PdfPageImage) (schemaData : option (gmap string json)),
       extractFromImages env e images schemaData options = ([], Err VisionDisabled).
Proof.
  intros Hoff (Hsrc & Hschema & parsed & Hparsed & Hmode).
  assert (Hvision : forall images schemaData,
             extractFromImages env e images schemaData options = ([], Err VisionDisabled)).
  { intros. now apply extractFromImages_disabled. }
  assert (Htrace : trace (Extract env e options)
                   = trace (parseSource env options (parseOptionsOf e))).
  { rewrite (Extract_validated _ _ _ Hsrc Hschema), bind_trace, wrap_trace, wrap_result.
    rewrite Hparsed. unfold isTextMode in Hmode. rewrite Hmode, Hvision.
    apply app_nil_r. }
  split; [| split; [| split]].
  - rewrite (Extract_validated _ _ _ Hsrc Hschema), bind_result, wrap_result.
    rewrite Hparsed. unfold isTextMode in Hmode. now rewrite Hmode, Hvision.
  - rewrite Htrace. apply parseSource_network_free.
  - exact Htrace.
  - exact Hvision.
Qed.

Lemma vision_disabled_fails_without_network_witness :
  result (Extract Stub.scanWorld (Stub.extractorOf Stub.visionOff) Stub.bufferOnly)
  = Err VisionDisabled
  /\ network_free
       (trace (Extract Stub.scanWorld (Stub.extractorOf Stub.visionOff) Stub.bufferOnly)).
Proof.
  destruct (vision_disabled_fails_without_network Stub.scanWorld
              (Stub.extractorOf Stub.visionOff) Stub.bufferOnly) as (H1 & H2 & _).
  - reflexivity.
  - split; [right; discriminate |]. split; [vm_compute; reflexivity |].
    eexists. split; [vm_compute; reflexivity | reflexivity].
  - split; assumption.
Defined.

(* ===================================================================== *)
(** * The document source                                                 *)
(* ===================================================================== *)

(** C2 as the specification states it fails: a request names both a valid
    buffer and the path of a file that is not on disk; [Extract] reads the
    path and fails there, never looking at the buffer, while the same request
    without the path succeeds from the buffer. *)
Lemma buffer_precedence_counterexample :
  PDFPath Stub.bothSources <> EmptyString
  /\ PDFBuffer Stub.bothSources = Some Stub.pdfBytes
  /\ trace (Extract Stub.textWorld (Stub.extractorOf Stub.onlyModel) Stub.bothSources)
     = [EvReadFile "invoice.pdf"]
  /\ is_ok (result (Extract Stub.textWorld (Stub.extractorOf Stub.onlyModel)
                      Stub.bothSources)) = false
  /\ is_ok (result (Extract Stub.textWorld (Stub.extractorOf Stub.onlyModel)
                      (withoutPath Stub.bothSources))) = true
  /\ parseSource Stub.textWorld Stub.bothSources None
     <> ParsePdfFromBuffer Stub.textWorld Stub.pdfBytes None.
Proof.
  split; [discriminate |]. split; [reflexivity |].
  split; [vm_compute; reflexivity |]. split; [vm_compute; reflexivity |].
  split; [vm_compute; reflexivity |].
  intros H. apply (f_equal (fun m => is_ok (result m))) in H.
  vm_compute in H. discriminate.
Qed.

Lemma Extract_withoutBuffer (env : Env) (e : Extractor) (options : ExtractionOptions) :
  PDFPath options <> EmptyString ->
  Extract env e options = Extract env e (withoutBuffer options).
Proof.
  intros Hp. unfold Extract, parseSource.
  change (PDFPath (withoutBuffer options)) with (PDFPath options).
  rewrite (eqb_empty_false _ Hp). reflexivity.
Qed.

(** C2, amended: when a request gives a non-empty path, the path is the
    document source: the file is read first and parsed, and the buffer, given
    or not, changes nothing; the buffer is parsed only when the path is
    empty. *)
Theorem path_takes_precedence (env : Env) (e : Extractor) (options : ExtractionOptions)
    (parseOptions : option ParseOptions) :
  (PDFPath options <> EmptyString ->
     parseSource env options parseOptions
     = ParsePdfFromPath env (PDFPath options) parseOptions
     /\ head (trace (parseSource env options parseOptions))
        = Some (EvReadFile (PDFPath options))
     /\ Extract env e options = Extract env e (withoutBuffer options))
  /\ (PDFPath options = EmptyString ->
        forall buffer : list byte,
          PDFBuffer options = Some buffer ->
          parseSource env options parseOptions
          = ParsePdfFromBuffer env buffer parseOptions).
Proof.
  split.
  - intros Hp.
    assert (Hsrc : parseSource env options parseOptions
                   = ParsePdfFromPath env (PDFPath options) parseOptions).
    { unfold parseSource. now rewrite (eqb_empty_false _ Hp). }
    split; [exact Hsrc |]. split; [| now apply Extract_withoutBuffer].
    rewrite Hsrc. unfold ParsePdfFromPath. apply bind_first, wrap_first. reflexivity.
  - intros Hp buffer Hb. unfold parseSource. rewrite Hp, Hb. reflexivity.
Qed.

Lemma path_takes_precedence_witness :
  parseSource Stub.textWorld Stub.bothSources None
  = ParsePdfFromPath Stub.textWorld "invoice.pdf" None
  /\ parseSource Stub.textWorld Stub.bufferOnly None
     = ParsePdfFromBuffer Stub.textWorld Stub.pdfBytes None.
Proof.
  destruct (path_takes_precedence Stub.textWorld (Stub.extractorOf Stub.onlyModel)
              Stub.bothSources None) as [H1 _].
  destruct (path_takes_precedence Stub.textWorld (Stub.extractorOf Stub.onlyModel)
              Stub.bufferOnly None) as [_ H2].
  split.
  - apply H1. discriminate.
  - apply (H2 eq_refl Stub.pdfBytes eq_refl).
Defined.

(* ===================================================================== *)
(** * The completion client                                               *)
(* ===================================================================== *)

(** What [callOpenAI] does with a received response. *)
Lemma callOpenAI_received (env : Env) (e : Extractor) (requestBody : gmap string json)
    (resp : HttpResponse) (body : list byte) :
  receives env e requestBody resp body ->
  result (callOpenAI env e requestBody)
  = if negb (StatusCode resp =? http_StatusOK) then
      Err (RemoteError (StatusCode resp) body)
    else
      match json_Unmarshal_response env body with
      | Err cause => Err (ResponseParseError cause)
      | Ok response =>
          match firstContent response with
          | None => Err EmptyCompletion
          | Some content =>
              if String.eqb content "" then Err EmptyCompletion
              else
                match json_Unmarshal_map env (bytes_of_string content) with
                | Err cause => Err (MalformedCompletion cause)
                | Ok data =>
                    Ok {| Data := data;
                          TokensUsed := TotalTokens (Usage response);
                          Result_Model := Response_Model response |}
                end
          end
      end.
Proof.
  intros (jsonData & req & Hmarshal & Hreq & Hdo & Hbody).
  unfold callOpenAI, lift, call. rewrite Hmarshal. cbn [wrap]. rewrite bind_ok.
  cbn [result snd]. rewrite Hreq. cbn [wrap]. rewrite bind_ok. cbn [result snd].
  rewrite Hdo. cbn [wrap]. rewrite bind_ok. cbn [result snd].
  unfold defer. cbn [snd]. rewrite Hbody. cbn [wrap]. rewrite bind_ok. cbn [result snd].
  destruct (negb (StatusCode resp =? http_StatusOK)); [reflexivity |].
  destruct (json_Unmarshal_response env body) as [response | cause]; [| reflexivity].
  cbn [wrap]. rewrite bind_ok. cbn [result snd]. unfold firstContent.
  destruct (Choices response) as [| choice rest]; [reflexivity |].
  destruct (String.eqb (Message_Content (Message choice)) ""); [reflexivity |].
  destruct (json_Unmarshal_map env _) as [data | cause]; reflexivity.
Qed.

(** C7 as the specification states it fails, twice.  A 201 answer is a
    success status and carries a well-formed completion, yet the client fails
    with [RemoteError]; a 200 answer whose body does not decode as the
    envelope makes the client fail with an error that is none of
    [RemoteError], [EmptyCompletion] and [MalformedCompletion]. *)
Lemma completion_outcomes_counterexample :
  (receives Stub.createdWorld (Stub.extractorOf Stub.onlyModel) Stub.payload
     Stub.created (bytes_of_string "{}")
   /\ isSuccessStatus (StatusCode Stub.created) = true
   /\ json_Unmarshal_response Stub.createdWorld (bytes_of_string "{}")
      = Ok Stub.completion
   /\ firstContent Stub.completion = Some "{}"%string
   /\ json_Unmarshal_map Stub.createdWorld (bytes_of_string "{}") = Ok (Some ∅)
   /\ result (callOpenAI Stub.createdWorld (Stub.extractorOf Stub.onlyModel) Stub.payload)
      = Err (RemoteError 201 (bytes_of_string "{}")))
  /\ (receives Stub.garbledWorld (Stub.extractorOf Stub.onlyModel) Stub.payload
        (Stub.response 200) []
      /\ isSuccessStatus (StatusCode (Stub.response 200)) = true
      /\ result (callOpenAI Stub.garbledWorld (Stub.extractorOf Stub.onlyModel)
                   Stub.payload)
         = Err (ResponseParseError (external_error "invalid character 'o' in literal"))
      /\ ResponseParseError (external_error "invalid character 'o' in literal")
         <> EmptyCompletion
      /\ (forall cause,
            ResponseParseError (external_error "invalid character 'o' in literal")
            <> MalformedCompletion cause)
      /\ (forall status body,
            ResponseParseError (external_error "invalid character 'o' in literal")
            <> RemoteError status body)).
Proof.
  split.
  - split; [| repeat split; vm_compute; reflexivity].
    do 2 eexists. repeat split; vm_compute; reflexivity.
  - split; [| repeat split; try (vm_compute; reflexivity); discriminate].
    do 2 eexists. repeat split; vm_compute; reflexivity.
Qed.

(** C7, amended: for every response the completion client receives, a
    status other than 200 (another 2xx code as well) fails with [RemoteError]
    carrying the status code and the raw body; a 200 answer whose body does
    not decode as the envelope fails with a response-parse error; one whose
    envelope has no choice, or an empty first-message content, fails with
    [EmptyCompletion]; one whose content does not decode fails with
    [MalformedCompletion]; any other returns the decoded content with the
    reported total-token count and model name. *)
Theorem completion_outcomes (env : Env) (e : Extractor) (requestBody : gmap string json)
    (resp : HttpResponse) (body : list byte) :
  receives env e requestBody resp body ->
  (StatusCode resp <> 200 ->
     result (callOpenAI env e requestBody) = Err (RemoteError (StatusCode resp) body))
  /\ (StatusCode resp = 200 ->
        (forall cause,
            json_Unmarshal_response env body = Err cause ->
            result (callOpenAI env e requestBody) = Err (ResponseParseError cause))
        /\ (forall response,
              json_Unmarshal_response env body = Ok response ->
              (firstContent response = None \/ firstContent response = Some EmptyString ->
                 result (callOpenAI env e requestBody) = Err EmptyCompletion)
              /\ (forall content,
                    firstContent response = Some content ->
                    content <> EmptyString ->
                    (forall cause,
                        json_Unmarshal_map env (bytes_of_string content) = Err cause ->
                        result (callOpenAI env e requestBody)
                        = Err (MalformedCompletion cause))
                    /\ (forall data,
                          json_Unmarshal_map env (bytes_of_string content) = Ok data ->
                          result (callOpenAI env e requestBody)
                          = Ok {| Data := data;
                                  TokensUsed := TotalTokens (Usage response);
                                  Result_Model := Response_Model response |})))).
Proof.
  intros Hrecv. rewrite (callOpenAI_received _ _ _ _ _ Hrecv). unfold http_StatusOK.
  split.
  - intros Hstatus. destruct (Z.eqb_spec (StatusCode resp) 200); [contradiction | reflexivity].
  - intros ->. cbn [Z.eqb Pos.eqb negb]. split.
    + intros cause ->. reflexivity.
    + intros response ->. split.
      * intros [-> | ->]; reflexivity.
      * intros content -> Hne. rewrite (eqb_empty_false _ Hne). split.
        -- intros cause ->. reflexivity.
        -- intros data ->. reflexivity.
Qed.

Lemma completion_outcomes_witness :
  result (callOpenAI Stub.textWorld (Stub.extractorOf Stub.onlyModel) Stub.payload)
  = Ok {| Data := Some ∅; TokensUsed := 42; Result_Model := "m1" |}
  /\ result (callOpenAI Stub.createdWorld (Stub.extractorOf Stub.onlyModel) Stub.payload)
     = Err (RemoteError 201 (bytes_of_string "{}")).
Proof.
  split.
  - destruct (completion_outcomes Stub.textWorld (Stub.extractorOf Stub.onlyModel)
                Stub.payload (Stub.response 200) []) as [_ H].
    + do 2 eexists. repeat split; vm_compute; reflexivity.
    + destruct (H eq_refl) as [_ H']. destruct (H' Stub.completion eq_refl) as [_ H''].
      destruct (H'' "{}"%string eq_refl) as [_ Hok]; [discriminate |].
      apply (Hok (Some ∅)). reflexivity.
  - destruct (completion_outcomes Stub.createdWorld (Stub.extractorOf Stub.onlyModel)
                Stub.payload Stub.created (bytes_of_string "{}")) as [H _].
    + do 2 eexists. repeat split; vm_compute; reflexivity.
    + apply H. discriminate.
Defined.

(* ===================================================================== *)
(** * The text of the pages                                               *)
(* ===================================================================== *)

Lemma string_app_cons (c : Ascii.ascii) (a b : string) :
  String c a +:+ b = String c (a +:+ b).
Proof. reflexivity. Qed.

Lemma string_app_nil_r (a : string) : a +:+ EmptyString = a.
Proof.
  induction a as [| c a IH]; [reflexivity |]. now rewrite string_app_cons, IH.
Qed.

Lemma string_app_assoc (a b c : string) : (a +:+ b) +:+ c = a +:+ (b +:+ c).
Proof.
  induction a as [| ch a IH]; [reflexivity |]. now rewrite !string_app_cons, IH.
Qed.

Lemma successfulPageTexts_cons (doc : Document) (pageNum : Z) (rest : list Z) :
  successfulPageTexts doc (pageNum :: rest)
  = match doc_Text doc pageNum with
    | Ok pageText => pageText :: successfulPageTexts doc rest
    | Err _ => successfulPageTexts doc rest
    end.
Proof.
  unfold successfulPageTexts. cbn [omap list_omap].
  destruct (doc_Text doc pageNum); reflexivity.
Qed.

(** The page loop: every page of the range is asked for, in order, and the
    builder grows by the text of each page that answers, and a newline. *)
Lemma extractPages_spec (doc : Document) (pages : list Z) (textBuilder : string) :
  extractPages doc pages textBuilder
  = (EvPageText <$> pages,
     Ok (textBuilder +:+ unlines (successfulPageTexts doc pages))).
Proof.
  revert textBuilder. induction pages as [| pageNum rest IH]; intros textBuilder.
  - cbn. now rewrite string_app_nil_r.
  - cbn [extractPages]. unfold recover, call. cbn [fst snd]. rewrite bind_ok.
    rewrite successfulPageTexts_cons.
    destruct (doc_Text doc pageNum) as [pageText | err]; rewrite IH; cbn [trace result fst snd].
    + cbn [unlines fold_right]. fold (unlines (successfulPageTexts doc rest)).
      rewrite !string_app_assoc. reflexivity.
    + reflexivity.
Qed.

Lemma getPageCount_recovered (env : Env) (buffer : list byte) :
  recover (getPageCount env buffer)
  = ([EvPDFInfo buffer],
     Ok match pdfcpu_PDFInfo env buffer with
        | Ok (Some info) => Ok (if PageCount info >? 0 then PageCount info else 1)
        | Ok None => Ok 1
        | Err err => Err err
        end).
Proof.
  unfold recover, getPageCount, call.
  destruct (pdfcpu_PDFInfo env buffer) as [[info |] | err]; try reflexivity.
  rewrite bind_ok. destruct (PageCount info >? 0); reflexivity.
Qed.

(** [extractTextFromPdf] never fails, and what it returns. *)
Lemma extractTextFromPdf_spec (env : Env) (buffer : list byte) :
  extractTextFromPdf env buffer
  = match fitz_NewFromMemory env buffer with
    | Ok doc =>
        ([EvPDFInfo buffer; EvOpenDocument buffer]
           ++ (EvPageText <$> forRange (probedPageCount env buffer))
           ++ [EvCloseDocument],
         Ok (unlines (successfulPageTexts doc (forRange (probedPageCount env buffer))),
             probedPageCount env buffer, ∅))
    | Err _ =>
        ([EvPDFInfo buffer; EvOpenDocument buffer],
         Ok (EmptyString, probedPageCount env buffer, ∅))
    end.
Proof.
  unfold extractTextFromPdf. rewrite getPageCount_recovered, bind_ok.
  set (numPages := match _ with Ok n => n | Err _ => 1 end).
  assert (Hn : numPages = probedPageCount env buffer).
  { unfold numPages, probedPageCount.
    destruct (pdfcpu_PDFInfo env buffer) as [[info |] | err]; reflexivity. }
  rewrite Hn. clear Hn numPages.
  unfold recover, call. cbn [fst snd]. rewrite bind_ok.
  destruct (fitz_NewFromMemory env buffer) as [doc | err]; [| reflexivity].
  rewrite extractPages_spec, bind_ok. unfold defer. cbn [trace result fst snd ret].
  rewrite app_nil_r. reflexivity.
Qed.

(** C9 as the specification states it fails: on a three-page document
    whose second page does not extract, the text returned ends with a
    newline, which the successful texts separated by a newline do not. *)
Lemma page_texts_joined_counterexample :
  successfulPageTexts (Stub.document Stub.threePages) (forRange 3)
  = ["alpha"%string; "gamma"%string]
  /\ result (extractTextFromPdf Stub.skipWorld Stub.pdfBytes)
     = Ok ("alpha" +:+ nl +:+ "gamma" +:+ nl, 3, ∅)
  /\ joinLines ["alpha"%string; "gamma"%string] = "alpha" +:+ nl +:+ "gamma"
  /\ result (extractTextFromPdf Stub.skipWorld Stub.pdfBytes)
     <> Ok (joinLines (successfulPageTexts (Stub.document Stub.threePages) (forRange 3)),
            3, ∅).
Proof.
  split; [vm_compute; reflexivity |]. split; [vm_compute; reflexivity |].
  split; [vm_compute; reflexivity |].
  intros H. vm_compute in H. discriminate.
Qed.

(** C9, amended: when the document opens, the text extractor asks every
    page of the probed range in order, a page whose extraction call fails is
    skipped and never makes the call fail, and the text returned is the
    concatenation, in page order, of the successfully extracted page texts,
    each followed by a newline. *)
Theorem page_texts_newline_terminated (env : Env) (buffer : list byte) (doc : Document) :
  fitz_NewFromMemory env buffer = Ok doc ->
  result (extractTextFromPdf env buffer)
  = Ok (unlines (successfulPageTexts doc (forRange (probedPageCount env buffer))),
        probedPageCount env buffer, ∅)
  /\ trace (extractTextFromPdf env buffer)
     = [EvPDFInfo buffer; EvOpenDocument buffer]
         ++ (EvPageText <$> forRange (probedPageCount env buffer))
         ++ [EvCloseDocument].
Proof.
  intros Hopen. rewrite extractTextFromPdf_spec, Hopen. split; reflexivity.
Qed.

Lemma page_texts_newline_terminated_witness :
  result (extractTextFromPdf Stub.skipWorld Stub.pdfBytes)
  = Ok ("alpha" +:+ nl +:+ "gamma" +:+ nl, 3, ∅).
Proof.
  destruct (page_texts_newline_terminated Stub.skipWorld Stub.pdfBytes
              (Stub.document Stub.threePages) eq_refl) as [H _].
  rewrite H. vm_compute. reflexivity.
Defined.

(* ===================================================================== *)
(** * Further properties of the orchestrator                              *)
(* ===================================================================== *)

(** Without a credential, construction fails. *)
Lemma New_rejects (cfg : ExtractorConfig) :
  OpenAIAPIKey cfg = EmptyString -> New cfg = Err ConfigurationError.
Proof. intros H. unfold New. now rewrite H. Qed.

(** Without a source, [Extract] fails before any call. *)
Lemma Extract_missing_source (env : Env) (e : Extractor) (options : ExtractionOptions) :
  PDFPath options = EmptyString ->
  PDFBuffer options = None ->
  Extract env e options = ([], Err MissingSource).
Proof. intros Hp Hb. unfold Extract. now rewrite Hp, Hb. Qed.

(** The type of a parsed document is the verdict of the mode selector on
    the extracted text. *)
Lemma ParsePdfFromBuffer_mode (env : Env) (buffer : list byte)
    (options : option ParseOptions) (parsed : ParsedPdf) :
  result (ParsePdfFromBuffer env buffer options) = Ok parsed ->
  exists text numPages info,
    result (extractTextFromPdf env buffer) = Ok (text, numPages, info)
    /\ isTextMode parsed = hasExtractableText text (resolveThreshold options).
Proof.
  unfold ParsePdfFromBuffer. destruct (negb (isValidPdfSignature buffer)); [discriminate |].
  rewrite bind_result, wrap_result.
  destruct (result (extractTextFromPdf env buffer)) as [[[text numPages] info] | err];
    [| discriminate].
  destruct (hasExtractableText text (resolveThreshold options)) eqn:Hmode.
  - intros [= <-]. exists text, numPages, info. split; [reflexivity | now rewrite Hmode].
  - rewrite bind_result, wrap_result.
    destruct (result (convertPdfToImages env buffer)); [| discriminate].
    intros [= <-]. exists text, numPages, info. split; [reflexivity | now rewrite Hmode].
Qed.

(** With the vision flag off, only a text document makes [Extract] call the
    endpoint: validation failures, parser failures and the vision branch all
    return without a network call. *)
Lemma Extract_vision_off_network_free (env : Env) (e : Extractor)
    (options : ExtractionOptions) :
  VisionEnabled (config e) = false ->
  (forall parsed,
      result (parseSource env options (parseOptionsOf e)) = Ok parsed ->
      isTextMode parsed = false) ->
  network_free (trace (Extract env e options)).
Proof.
  intros Hoff Hmode. unfold Extract.
  destruct (_ && _); [constructor |].
  destruct (ValidateSchema env (Schema options)); [constructor |].
  rewrite bind_trace, wrap_trace, wrap_result. apply Forall_app. split.
  - apply parseSource_network_free.
  - destruct (result (parseSource env options (parseOptionsOf e))) as [parsed | err] eqn:Hp;
      [| constructor].
    specialize (Hmode parsed eq_refl). unfold isTextMode in Hmode. rewrite Hmode.
    rewrite extractFromImages_disabled by exact Hoff. constructor.
Qed.

(** The stubbed endpoint of the specification: the completion comes back
    with its token count and model name. *)
Example Extract_stubbed_endpoint :
  result (Extract Stub.textWorld (Stub.extractorOf Stub.onlyModel) Stub.bufferOnly)
  = Ok {| Data := Some ∅; TokensUsed := 42; Result_Model := "m1" |}.
Proof. vm_compute. reflexivity. Qed.

(* ===================================================================== *)
(** * Schema validation and construction                                  *)
(* ===================================================================== *)

(** X1: a nil schema and an empty schema are rejected, each with its own
    message and whatever the JSON-schema library would say; any other schema
    is accepted exactly when the library loads it. *)
Theorem ValidateSchema_verdict (env : Env) (schema : option (gmap string json)) :
  ValidateSchema env None = Some (errors_New "schema must be a non-null object")
  /\ ValidateSchema env (Some ∅) = Some (errors_New "schema cannot be empty")
  /\ (ValidateSchema env schema = None
      <-> exists m, schema = Some m /\ m <> ∅
                    /\ is_ok (gojsonschema_NewSchema env m) = true).
Proof.
  split; [reflexivity |]. split; [reflexivity |].
  unfold ValidateSchema. destruct schema as [m |].
  - destruct (decide (size m = 0%nat)) as [Hsize | Hsize].
    + split; [discriminate |]. intros (m' & [= <-] & Hne & _).
      apply map_size_empty_iff in Hsize. contradiction.
    + destruct (gojsonschema_NewSchema env m) as [u | err] eqn:Hload.
      * split; [| reflexivity]. intros _. exists m.
        split; [reflexivity |]. split; [| now rewrite Hload].
        intros ->. apply Hsize. apply map_size_empty.
      * split; [discriminate |]. intros (m' & [= <-] & _ & Hok).
        rewrite Hload in Hok. discriminate.
  - split; [discriminate |]. intros (m & Hm & _). discriminate.
Qed.

(** The extractor [New] returns, field by field. *)
Lemma New_resolved (cfg : ExtractorConfig) (e : Extractor) :
  New cfg = Ok e ->
  OpenAIAPIKey cfg <> EmptyString
  /\ e = {| client := http_Client_zero;
            apiKey := OpenAIAPIKey cfg;
            baseURL := (if String.eqb (BaseURL cfg) "" then defaultBaseURL else BaseURL cfg);
            model := (if String.eqb (Model cfg) "" then defaultModel else Model cfg);
            textModel :=
              (if String.eqb (TextModel cfg) "" then
                 (if String.eqb (Model cfg) "" then defaultModel else Model cfg)
               else TextModel cfg);
            visionModel :=
              (if String.eqb (VisionModel cfg) "" then
                 (if String.eqb (Model cfg) "" then defaultModel else Model cfg)
               else VisionModel cfg);
            config :=
              {| OpenAIAPIKey := OpenAIAPIKey cfg;
                 BaseURL :=
                   (if String.eqb (BaseURL cfg) "" then defaultBaseURL else BaseURL cfg);
                 Model := (if String.eqb (Model cfg) "" then defaultModel else Model cfg);
                 TextModel := TextModel cfg;
                 VisionModel := VisionModel cfg;
                 VisionEnabled := VisionEnabled cfg;
                 TextThreshold :=
                   (if TextThreshold cfg =? 0 then extractor.defaultTextThreshold
                    else TextThreshold cfg);
                 SystemPrompt := SystemPrompt cfg |};
            systemPrompt :=
              (if String.eqb (SystemPrompt cfg) "" then defaultSystemPrompt
               else SystemPrompt cfg) |}.
Proof.
  unfold New. destruct (String.eqb_spec (OpenAIAPIKey cfg) "") as [| Hkey]; [discriminate |].
  intros [= <-]. split; [exact Hkey |]. destruct cfg as [k b m tm vm ve tt sp]. cbn.
  destruct (String.eqb m ""); cbn; destruct (String.eqb b ""); cbn;
    destruct (tt =? 0); cbn; reflexivity.
Qed.

(** X2: an extractor that [New] returns has no empty field: the key, the
    endpoint, the three models and the system instruction are all set, and
    the threshold of its configuration is not zero. *)
Theorem New_leaves_no_field_empty (cfg : ExtractorConfig) (e : Extractor) :
  New cfg = Ok e ->
  apiKey e <> EmptyString
  /\ baseURL e <> EmptyString
  /\ model e <> EmptyString
  /\ textModel e <> EmptyString
  /\ visionModel e <> EmptyString
  /\ systemPrompt e <> EmptyString
  /\ TextThreshold (config e) <> 0.
Proof.
  intros HN. destruct (New_resolved _ _ HN) as [Hkey ->]. cbn.
  split; [exact Hkey |].
  destruct (String.eqb_spec (Model cfg) "") as [HM | HM];
    destruct (String.eqb_spec (BaseURL cfg) "") as [HB | HB];
    destruct (Z.eqb_spec (TextThreshold cfg) 0) as [HT | HT];
    destruct (String.eqb_spec (SystemPrompt cfg) "") as [HS | HS];
    destruct (String.eqb_spec (TextModel cfg) "") as [HTM | HTM];
    destruct (String.eqb_spec (VisionModel cfg) "") as [HVM | HVM];
    repeat split; try assumption; discriminate.
Qed.

Lemma New_leaves_no_field_empty_witness :
  apiKey (Stub.extractorOf Stub.apiKeyOnly) <> EmptyString
  /\ baseURL (Stub.extractorOf Stub.apiKeyOnly) <> EmptyString
  /\ model (Stub.extractorOf Stub.apiKeyOnly) <> EmptyString.
Proof.
  destruct (New_leaves_no_field_empty Stub.apiKeyOnly (Stub.extractorOf Stub.apiKeyOnly)
              eq_refl) as (H1 & H2 & H3 & _).
  repeat split; assumption.
Defined.

Lemma or_default_twice (d s : string) :
  d <> EmptyString ->
  (if String.eqb (if String.eqb s "" then d else s) "" then d
   else (if String.eqb s "" then d else s))
  = (if String.eqb s "" then d else s).
Proof.
  intros Hd. destruct (String.eqb_spec s "") as [Hs | Hs].
  - now rewrite (eqb_empty_false _ Hd).
  - now rewrite (eqb_empty_false _ Hs).
Qed.

Lemma threshold_default_twice (t d : Z) :
  d <> 0 ->
  (if (if t =? 0 then d else t) =? 0 then d else (if t =? 0 then d else t))
  = (if t =? 0 then d else t).
Proof.
  intros Hd. destruct (Z.eqb_spec t 0) as [Ht | Ht].
  - now rewrite (proj2 (Z.eqb_neq _ _) Hd).
  - now rewrite (proj2 (Z.eqb_neq _ _) Ht).
Qed.

(** X3: resolving the defaults is idempotent: the configuration an
    extractor keeps is accepted by [New] again and gives the same extractor. *)
Theorem New_idempotent (cfg : ExtractorConfig) (e : Extractor) :
  New cfg = Ok e -> New (config e) = Ok e.
Proof.
  intros HN. destruct (New_resolved _ _ HN) as [Hkey He].
  assert (Hkey' : OpenAIAPIKey (config e) <> EmptyString) by now rewrite He.
  destruct (proj1 (New_accepts _) Hkey') as [e' HN']. rewrite HN'. f_equal.
  destruct (New_resolved _ _ HN') as [_ ->]. rewrite He. cbn.
  rewrite !or_default_twice by discriminate.
  rewrite threshold_default_twice by discriminate. reflexivity.
Qed.

Lemma New_idempotent_witness :
  New (config (Stub.extractorOf Stub.apiKeyOnly)) = Ok (Stub.extractorOf Stub.apiKeyOnly).
Proof. apply (New_idempotent Stub.apiKeyOnly). reflexivity. Defined.

(* ===================================================================== *)
(** * The orchestrator: validation, dispatch, failures                    *)
(* ===================================================================== *)

(** X4: a request that names no source, or whose schema is rejected, makes
    [Extract] fail before any external call; the missing source is reported
    first, also when the schema is invalid as well. *)
Theorem Extract_rejects_before_any_call (env : Env) (e : Extractor)
    (options : ExtractionOptions) :
  sourceMissing options = true \/ ValidateSchema env (Schema options) <> None ->
  trace (Extract env e options) = []
  /\ is_ok (result (Extract env e options)) = false
  /\ (sourceMissing options = true -> result (Extract env e options) = Err MissingSource)
  /\ (forall cause,
        sourceMissing options = false ->
        ValidateSchema env (Schema options) = Some cause ->
        result (Extract env e options)
        = Err (fmt_Errorf "invalid JSON schema: %w" [ArgError cause])).
Proof.
  intros H. unfold Extract. fold (sourceMissing options).
  destruct (sourceMissing options) eqn:Hsrc.
  - repeat split; try reflexivity. intros cause Hfalse. discriminate.
  - destruct H as [H | H]; [discriminate |].
    destruct (ValidateSchema env (Schema options)) as [cause |]; [| contradiction].
    repeat split; try reflexivity; try discriminate.
    intros cause' _ [= <-]. reflexivity.
Qed.

Lemma Extract_rejects_before_any_call_witness :
  trace (Extract Stub.textWorld (Stub.extractorOf Stub.onlyModel) noSource) = []
  /\ result (Extract Stub.textWorld (Stub.extractorOf Stub.onlyModel) noSource)
     = Err MissingSource
  /\ result (Extract Stub.textWorld (Stub.extractorOf Stub.onlyModel) emptySchema)
     = Err (fmt_Errorf "invalid JSON schema: %w"
              [ArgError (errors_New "schema cannot be empty")]).
Proof.
  destruct (Extract_rejects_before_any_call Stub.textWorld
              (Stub.extractorOf Stub.onlyModel) noSource) as (H1 & _ & H2 & _);
    [left; reflexivity |].
  destruct (Extract_rejects_before_any_call Stub.textWorld
              (Stub.extractorOf Stub.onlyModel) emptySchema) as (_ & _ & _ & H3);
    [right; discriminate |].
  split; [exact H1 |]. split; [exact (H2 eq_refl) |].
  exact (H3 _ eq_refl eq_refl).
Defined.

Lemma sourceMissing_false (options : ExtractionOptions) :
  sourceMissing options = false ->
  PDFPath options <> EmptyString \/ PDFBuffer options <> None.
Proof.
  unfold sourceMissing. destruct (String.eqb_spec (PDFPath options) "") as [Hp | Hp];
    [| now left].
  cbn. intros H. right. now apply bool_decide_eq_false in H.
Qed.

(** X5: a buffer that does not start with the signature makes [Extract]
    fail with the parser's invalid-PDF error, wrapped once, without a single
    external call: no file, PDF library or endpoint is touched. *)
Theorem Extract_rejects_non_pdf_buffer (env : Env) (e : Extractor)
    (options : ExtractionOptions) (buffer : list byte) :
  PDFPath options = EmptyString ->
  PDFBuffer options = Some buffer ->
  ValidateSchema env (Schema options) = None ->
  isValidPdfSignature buffer = false ->
  Extract env e options
  = ([], Err (fmt_Errorf "failed to parse PDF: %w" [ArgError InvalidPdf])).
Proof.
  intros Hp Hb Hschema Hsig.
  rewrite Extract_validated; [| right; rewrite Hb; discriminate | exact Hschema].
  unfold parseSource. rewrite Hp, Hb. change (slice_bytes (Some buffer)) with buffer.
  cbn [String.eqb negb]. unfold ParsePdfFromBuffer. rewrite Hsig. reflexivity.
Qed.

Lemma Extract_rejects_non_pdf_buffer_witness :
  Extract Stub.textWorld (Stub.extractorOf Stub.onlyModel) notPdf
  = ([], Err (fmt_Errorf "failed to parse PDF: %w" [ArgError InvalidPdf])).
Proof.
  apply (Extract_rejects_non_pdf_buffer Stub.textWorld (Stub.extractorOf Stub.onlyModel)
           notPdf (bytes_of_string "NOT A PDF")); reflexivity.
Defined.

(** X6: once the validations pass and the parser returns a document,
    [Extract] is the parser followed by one call of the completion client:
    on the text payload for a text document, whatever the vision flag is, and
    on the vision payload for any other document when the flag is on. *)
Theorem Extract_dispatch (env : Env) (e : Extractor) (options : ExtractionOptions)
    (parsed : ParsedPdf) :
  sourceMissing options = false ->
  ValidateSchema env (Schema options) = None ->
  result (parseSource env options (parseOptionsOf e)) = Ok parsed ->
  (isTextMode parsed = true ->
     Extract env e options
     = (trace (parseSource env options (parseOptionsOf e))
          ++ trace (callOpenAI env e
                      (textRequestBody e (TextContent (Content parsed)) (Schema options)
                         options)),
        result (callOpenAI env e
                  (textRequestBody e (TextContent (Content parsed)) (Schema options)
                     options))))
  /\ (isTextMode parsed = false ->
      VisionEnabled (config e) = true ->
      Extract env e options
      = (trace (parseSource env options (parseOptionsOf e))
           ++ trace (callOpenAI env e
                       (visionRequestBody e (ImageContent (Content parsed))
                          (Schema options) options)),
         result (callOpenAI env e
                   (visionRequestBody e (ImageContent (Content parsed))
                      (Schema options) options)))).
Proof.
  intros Hsrc Hschema Hparsed.
  rewrite (Extract_validated _ _ _ (sourceMissing_false _ Hsrc) Hschema).
  rewrite (surjective_pairing (parseSource env options (parseOptionsOf e))).
  change (snd (parseSource env options (parseOptionsOf e)))
    with (result (parseSource env options (parseOptionsOf e))).
  rewrite Hparsed. cbn [wrap]. rewrite bind_ok. unfold isTextMode. split.
  - intros ->. reflexivity.
  - intros -> Hon. unfold extractFromImages. rewrite Hon. reflexivity.
Qed.

Lemma Extract_dispatch_witness :
  Extract Stub.textWorld (Stub.extractorOf Stub.visionOff) Stub.bufferOnly
  = (trace (parseSource Stub.textWorld Stub.bufferOnly
              (parseOptionsOf (Stub.extractorOf Stub.visionOff)))
       ++ trace (callOpenAI Stub.textWorld (Stub.extractorOf Stub.visionOff)
                   (textRequestBody (Stub.extractorOf Stub.visionOff)
                      (Stub.longText +:+ nl) Stub.objectSchema Stub.bufferOnly)),
     result (callOpenAI Stub.textWorld (Stub.extractorOf Stub.visionOff)
               (textRequestBody (Stub.extractorOf Stub.visionOff)
                  (Stub.longText +:+ nl) Stub.objectSchema Stub.bufferOnly))).
Proof.
  destruct (Extract_dispatch Stub.textWorld (Stub.extractorOf Stub.visionOff)
              Stub.bufferOnly
              {| Content := {| Type_ := "text"; TextContent := Stub.longText +:+ nl;
                               ImageContent := [] |};
                 NumPages := 1; Info := ∅ |}) as [H _].
  - reflexivity.
  - reflexivity.
  - vm_compute. reflexivity.
  - apply H. reflexivity.
Defined.

(* ===================================================================== *)
(** * The completion client: what goes on the wire                        *)
(* ===================================================================== *)

(** The calls of [callOpenAI]: nothing when the request cannot be built,
    the request alone when the transport fails, otherwise the request, the
    read of the body and its close. *)
Lemma callOpenAI_trace (env : Env) (e : Extractor) (requestBody : gmap string json) :
  trace (callOpenAI env e requestBody)
  = match requestFor env e requestBody with
    | Err _ => []
    | Ok req =>
        EvHttpDo req ::
          match http_Client_Do env req with
          | Err _ => []
          | Ok resp => EvReadBody :: closeBody resp
          end
    end.
Proof.
  unfold callOpenAI, requestFor, lift, call.
  destruct (json_Marshal env (JObject requestBody)) as [jsonData | err]; [| reflexivity].
  cbn [wrap]. rewrite bind_ok, app_nil_l. cbn [trace fst].
  destruct (newRequest env e jsonData) as [req | err]; [| reflexivity].
  cbn [wrap]. rewrite bind_ok, app_nil_l. cbn [trace fst].
  destruct (http_Client_Do env req) as [resp | err]; [| reflexivity].
  cbn [wrap]. rewrite bind_ok. cbn [trace fst app]. f_equal.
  unfold defer. cbn [fst].
  destruct (resp_Body resp) as [body | err]; [| reflexivity].
  cbn [wrap]. rewrite bind_ok. cbn [fst app]. f_equal.
  destruct (negb (StatusCode resp =? http_StatusOK)); [reflexivity |].
  destruct (json_Unmarshal_response env body) as [response | err]; [| reflexivity].
  cbn [wrap]. rewrite bind_ok. cbn [fst app].
  destruct (Choices response) as [| choice rest]; [reflexivity |].
  destruct (String.eqb (Message_Content (Message choice)) ""); [reflexivity |].
  destruct (json_Unmarshal_map env _); reflexivity.
Qed.

(** X7: when the payload does not serialize, or the request cannot be
    created, the completion client returns the wrapped failure without any
    call; when the transport fails, the request was the only call, no body is
    read or closed, and the failure comes back wrapped as a transport
    error. *)
Theorem callOpenAI_fails_early (env : Env) (e : Extractor)
    (requestBody : gmap string json) (err : error) :
  (json_Marshal env (JObject requestBody) = Err err ->
     callOpenAI env e requestBody
     = ([], Err (fmt_Errorf "failed to marshal request: %w" [ArgError err])))
  /\ (forall jsonData,
        json_Marshal env (JObject requestBody) = Ok jsonData ->
        newRequest env e jsonData = Err err ->
        callOpenAI env e requestBody
        = ([], Err (fmt_Errorf "failed to create request: %w" [ArgError err])))
  /\ (forall jsonData req,
        json_Marshal env (JObject requestBody) = Ok jsonData ->
        newRequest env e jsonData = Ok req ->
        http_Client_Do env req = Err err ->
        callOpenAI env e requestBody
        = ([EvHttpDo req],
           Err (fmt_Errorf "failed to call OpenAI API: %w" [ArgError err]))).
Proof.
  unfold callOpenAI, lift, call. split; [| split].
  - intros ->. reflexivity.
  - intros jsonData -> Hreq. cbn [wrap]. rewrite bind_ok. rewrite Hreq. reflexivity.
  - intros jsonData req -> Hreq Hdo. cbn [wrap]. rewrite bind_ok, Hreq.
    cbn [wrap]. rewrite bind_ok, Hdo. reflexivity.
Qed.

Lemma callOpenAI_fails_early_witness :
  callOpenAI brokenWorld (Stub.extractorOf Stub.onlyModel) Stub.payload
  = ([], Err (fmt_Errorf "failed to marshal request: %w"
                [ArgError (external_error "json: unsupported value")]))
  /\ is_ok (result (callOpenAI unprobedWorld (Stub.extractorOf Stub.onlyModel)
                      Stub.payload)) = false.
Proof.
  split.
  - apply (callOpenAI_fails_early brokenWorld (Stub.extractorOf Stub.onlyModel)
             Stub.payload (external_error "json: unsupported value")).
    reflexivity.
  - destruct (callOpenAI_fails_early unprobedWorld (Stub.extractorOf Stub.onlyModel)
                Stub.payload (external_error "dial tcp: connection refused"))
      as (_ & _ & H).
    rewrite (H [] _ eq_refl eq_refl eq_refl). reflexivity.
Defined.

(** X8: once the transport returns a response, the client reads the body
    and closes it exactly once, after the read, on every path: whatever the
    status, the body and the decoders give. *)
Theorem callOpenAI_closes_body (env : Env) (e : Extractor)
    (requestBody : gmap string json) (req : HttpRequest) (resp : HttpResponse) :
  requestFor env e requestBody = Ok req ->
  http_Client_Do env req = Ok resp ->
  trace (callOpenAI env e requestBody) = [EvHttpDo req; EvReadBody] ++ closeBody resp
  /\ calls is_close_body (trace (callOpenAI env e requestBody)) = 1%nat.
Proof.
  intros Hreq Hdo. rewrite callOpenAI_trace, Hreq, Hdo. split; [reflexivity |].
  unfold closeBody. destruct (resp_Body_Close resp); reflexivity.
Qed.

Lemma callOpenAI_closes_body_witness :
  calls is_close_body
    (trace (callOpenAI Stub.createdWorld (Stub.extractorOf Stub.onlyModel) Stub.payload))
  = 1%nat.
Proof.
  destruct (callOpenAI_closes_body Stub.createdWorld (Stub.extractorOf Stub.onlyModel)
              Stub.payload
              {| req_Method := "POST";
                 req_URL := "https://api.openai.com/v1/chat/completions";
                 req_Header :=
                   <["Authorization" := "Bearer sk-test"%string]>
                     (<["Content-Type" := "application/json"%string]> ∅);
                 req_Body := [] |}
              Stub.created) as [_ H].
  - vm_compute. reflexivity.
  - reflexivity.
  - exact H.
Defined.

(** X9: every request the completion client sends is a POST to the base
    URL followed by [/chat/completions], with the bearer authorization and
    the JSON content type, and its body is the serialized payload. *)
Theorem callOpenAI_wire_contract (env : Env) (e : Extractor)
    (requestBody : gmap string json) (req : HttpRequest) :
  In (EvHttpDo req) (trace (callOpenAI env e requestBody)) ->
  req_Method req = "POST"%string
  /\ req_URL req = baseURL e +:+ "/chat/completions"
  /\ req_Header req !! "Authorization"%string = Some ("Bearer " +:+ apiKey e)
  /\ req_Header req !! "Content-Type"%string = Some "application/json"%string
  /\ json_Marshal env (JObject requestBody) = Ok (req_Body req).
Proof.
  rewrite callOpenAI_trace. unfold requestFor.
  destruct (json_Marshal env (JObject requestBody)) as [jsonData | err]; [| intros []].
  destruct (newRequest env e jsonData) as [req' | err] eqn:Hreq; [| intros []].
  intros Hin.
  assert (Heq : req = req').
  { destruct Hin as [[= ->] | Hin]; [reflexivity |].
    destruct (http_Client_Do env req') as [resp | ?]; [| destruct Hin].
    destruct Hin as [Hin | Hin]; [discriminate |].
    unfold closeBody in Hin. destruct (resp_Body_Close resp); cbn in Hin;
      intuition discriminate. }
  subst req'. unfold newRequest, http_NewRequest in Hreq.
  destruct (url_Parse env (baseURL e +:+ "/chat/completions")); [| discriminate].
  injection Hreq as <-. cbn. repeat split.
Qed.

Lemma callOpenAI_wire_contract_witness :
  req_Method
    {| req_Method := "POST";
       req_URL := "https://api.openai.com/v1/chat/completions";
       req_Header :=
         <["Authorization" := "Bearer sk-test"%string]>
           (<["Content-Type" := "application/json"%string]> ∅);
       req_Body := [] |} = "POST"%string
  /\ json_Marshal Stub.textWorld (JObject Stub.payload) = Ok [].
Proof.
  destruct (callOpenAI_wire_contract Stub.textWorld (Stub.extractorOf Stub.onlyModel)
              Stub.payload
              {| req_Method := "POST";
                 req_URL := "https://api.openai.com/v1/chat/completions";
                 req_Header :=
                   <["Authorization" := "Bearer sk-test"%string]>
                     (<["Content-Type" := "application/json"%string]> ∅);
                 req_Body := [] |}) as (H1 & _ & _ & _ & H5).
  - vm_compute. left. reflexivity.
  - split; assumption.
Defined.

Lemma calls_app (kind : event -> bool) (t t' : list event) :
  calls kind (t ++ t') = (calls kind t + calls kind t')%nat.
Proof. unfold calls. now rewrite List.filter_app, length_app. Qed.

Lemma network_free_calls (t : list event) :
  network_free t -> calls is_network_call t = 0%nat.
Proof.
  unfold calls. induction 1 as [| ev t Hev _ IH]; [reflexivity |].
  cbn. now rewrite Hev.
Qed.

Lemma callOpenAI_one_call (env : Env) (e : Extractor) (requestBody : gmap string json) :
  (calls is_network_call (trace (callOpenAI env e requestBody)) <= 1)%nat.
Proof.
  rewrite callOpenAI_trace. destruct (requestFor env e requestBody) as [req |]; [| cbn; lia].
  destruct (http_Client_Do env req) as [resp |]; [| cbn; lia].
  unfold closeBody. destruct (resp_Body_Close resp); cbn; lia.
Qed.

(** X10: [Extract] calls the completion endpoint at most once: a single
    attempt, never a retry, whatever fails. *)
Theorem Extract_at_most_one_network_call (env : Env) (e : Extractor)
    (options : ExtractionOptions) :
  (calls is_network_call (trace (Extract env e options)) <= 1)%nat.
Proof.
  unfold Extract. destruct (_ && _); [cbn; lia |].
  destruct (ValidateSchema env (Schema options)); [cbn; lia |].
  rewrite bind_trace, wrap_trace, wrap_result, calls_app.
  rewrite (network_free_calls _ (parseSource_network_free env options (parseOptionsOf e))).
  destruct (result (parseSource env options (parseOptionsOf e))) as [parsed | err];
    [| cbn; lia].
  cbn [Nat.add]. destruct (String.eqb (Type_ (Content parsed)) "text").
  - unfold extractFromText. apply callOpenAI_one_call.
  - unfold extractFromImages. destruct (negb _); [cbn; lia | apply callOpenAI_one_call].
Qed.

(* ===================================================================== *)
(** * The parser: pages, images and the document handle                   *)
(* ===================================================================== *)

Lemma probedPageCount_positive (env : Env) (buffer : list byte) :
  1 <= probedPageCount env buffer.
Proof.
  unfold probedPageCount.
  destruct (pdfcpu_PDFInfo env buffer) as [[info |] | err]; try lia.
  destruct (Z.gtb_spec (PageCount info) 0); lia.
Qed.

(** The page loop of [convertPdfToImages]. *)
Lemma renderPages_spec (env : Env) (doc : Document) (pages : list Z)
    (images : list PdfPageImage) :
  renderPages env doc pages images
  = (EvPageImage <$> attemptedPages env doc pages,
     match renderedPages env doc pages with
     | Ok rendered => Ok (images ++ rendered)
     | Err err => Err err
     end).
Proof.
  revert images. induction pages as [| pageNum rest IH]; intros images.
  - cbn. now rewrite app_nil_r.
  - cbn [renderPages attemptedPages renderedPages]. unfold renderedPage, call, lift.
    destruct (doc_Image doc pageNum) as [img | err]; [| reflexivity].
    cbn [wrap_with]. rewrite bind_ok.
    destruct (png_Encode env img) as [buf | err]; [| reflexivity].
    cbn [wrap_with]. rewrite bind_ok, IH. cbn [trace result fst snd app fmap list_fmap].
    destruct (renderedPages env doc rest) as [rendered | err]; [| reflexivity].
    now rewrite <- app_assoc.
Qed.

Lemma convertPdfToImages_spec (env : Env) (buffer : list byte) :
  convertPdfToImages env buffer
  = match fitz_NewFromMemory env buffer with
    | Err err =>
        ([EvOpenDocument buffer], Err (fmt_Errorf "failed to open PDF: %w" [ArgError err]))
    | Ok doc =>
        if doc_NumPage doc =? 0 then
          ([EvOpenDocument buffer; EvNumPage] ++ closeDocument doc,
           Err (errors_New "PDF conversion produced no images"))
        else
          ([EvOpenDocument buffer; EvNumPage]
             ++ (EvPageImage <$> attemptedPages env doc (forRange (doc_NumPage doc)))
             ++ closeDocument doc,
           renderedPages env doc (forRange (doc_NumPage doc)))
    end.
Proof.
  unfold convertPdfToImages, call.
  destruct (fitz_NewFromMemory env buffer) as [doc | err]; [| reflexivity].
  cbn [wrap]. rewrite bind_ok. unfold defer. rewrite bind_ok.
  destruct (doc_NumPage doc =? 0); [reflexivity |].
  rewrite renderPages_spec. cbn [trace result fst snd app].
  destruct (renderedPages env doc (forRange (doc_NumPage doc))); reflexivity.
Qed.

Lemma renderedPages_Forall2 (env : Env) (doc : Document) (pages : list Z)
    (images : list PdfPageImage) :
  renderedPages env doc pages = Ok images ->
  Forall2 (fun pageNum img => renderedPage env doc pageNum = Ok img) pages images.
Proof.
  revert images. induction pages as [| pageNum rest IH]; intros images.
  - intros [= <-]. constructor.
  - cbn [renderedPages]. destruct (renderedPage env doc pageNum) as [img | err] eqn:Hp;
      [| discriminate].
    destruct (renderedPages env doc rest) as [rendered | err]; [| discriminate].
    intros [= <-]. constructor; [exact Hp | now apply IH].
Qed.

Lemma renderedPage_Page (env : Env) (doc : Document) (pageNum : Z) (img : PdfPageImage) :
  renderedPage env doc pageNum = Ok img -> Page img = pageNum + 1.
Proof.
  unfold renderedPage. destruct (doc_Image doc pageNum) as [raw | err]; [| discriminate].
  destruct (png_Encode env raw); [| discriminate]. now intros [= <-].
Qed.

(** X11: when [convertPdfToImages] succeeds, there is one image per page
    of the document, in page order, numbered from 1, each the base64 of the
    PNG of its page; and the document does not report zero pages. *)
Theorem convertPdfToImages_numbers_pages (env : Env) (buffer : list byte)
    (doc : Document) (images : list PdfPageImage) :
  fitz_NewFromMemory env buffer = Ok doc ->
  result (convertPdfToImages env buffer) = Ok images ->
  doc_NumPage doc <> 0
  /\ length images = Z.to_nat (doc_NumPage doc)
  /\ Page <$> images = (fun pageNum => pageNum + 1) <$> forRange (doc_NumPage doc)
  /\ Forall2 (fun pageNum img => renderedPage env doc pageNum = Ok img)
       (forRange (doc_NumPage doc)) images.
Proof.
  intros Hopen. rewrite convertPdfToImages_spec, Hopen.
  destruct (Z.eqb_spec (doc_NumPage doc) 0) as [| Hn]; [discriminate |].
  cbn [result snd]. intros Hr. apply renderedPages_Forall2 in Hr.
  split; [exact Hn |]. split; [| split; [| exact Hr]].
  - rewrite <- (Forall2_length _ _ _ Hr). unfold forRange.
    now rewrite length_map, length_seq.
  - induction Hr as [| pageNum img pages imgs Hp _ IH]; [reflexivity |].
    cbn [fmap list_fmap]. cbn [fmap list_fmap] in IH.
    now rewrite IH, (renderedPage_Page _ _ _ _ Hp).
Qed.

Lemma convertPdfToImages_numbers_pages_witness :
  length [ {| Page := 1; Base64 := EmptyString |} ] = Z.to_nat 1
  /\ Page <$> [ {| Page := 1; Base64 := EmptyString |} ] = [1].
Proof.
  destruct (convertPdfToImages_numbers_pages Stub.scanWorld Stub.pdfBytes
              (Stub.document [Ok Stub.shortText])
              [ {| Page := 1; Base64 := EmptyString |} ]) as (_ & H1 & H2 & _).
  - reflexivity.
  - vm_compute. reflexivity.
  - split; [exact H1 | exact H2].
Defined.

Lemma forRange_succ (k : Z) : 0 <= k -> forRange (k + 1) = forRange k ++ [k].
Proof.
  intros Hk. unfold forRange. rewrite Z2Nat.inj_add by lia.
  change (Z.to_nat 1) with 1%nat. rewrite seq_app, map_app. cbn.
  now rewrite Z2Nat.id by lia.
Qed.

Lemma forRange_split (k n : Z) :
  0 <= k < n -> exists rest, forRange n = forRange k ++ k :: rest.
Proof.
  intros Hk. unfold forRange.
  replace (Z.to_nat n) with (Z.to_nat k + S (Z.to_nat (n - k - 1)))%nat by lia.
  rewrite seq_app, map_app. cbn. rewrite Z2Nat.id by lia. eauto.
Qed.

Lemma rendering_stops (env : Env) (doc : Document) (before rest : list Z) (k : Z)
    (err : error) :
  Forall (fun pageNum => is_ok (renderedPage env doc pageNum) = true) before ->
  renderedPage env doc k = Err err ->
  renderedPages env doc (before ++ k :: rest) = Err err
  /\ attemptedPages env doc (before ++ k :: rest) = before ++ [k].
Proof.
  intros Hbefore Hk. induction Hbefore as [| pageNum before Hp _ [IHr IHa]].
  - cbn. rewrite Hk. split; reflexivity.
  - cbn [app renderedPages attemptedPages].
    destruct (renderedPage env doc pageNum); [| discriminate].
    rewrite IHr, IHa. split; reflexivity.
Qed.

(** X12: when page [k] is the first page that does not render or encode,
    [convertPdfToImages] returns the failure of that page (which names it
    counting from 1), returns no image, asks for no later page, and closes
    the document. *)
Theorem convertPdfToImages_stops_at_first_failure (env : Env) (buffer : list byte)
    (doc : Document) (k : Z) (err : error) :
  fitz_NewFromMemory env buffer = Ok doc ->
  0 <= k < doc_NumPage doc ->
  Forall (fun pageNum => is_ok (renderedPage env doc pageNum) = true) (forRange k) ->
  renderedPage env doc k = Err err ->
  convertPdfToImages env buffer
  = ([EvOpenDocument buffer; EvNumPage]
       ++ (EvPageImage <$> forRange (k + 1)) ++ closeDocument doc,
     Err err).
Proof.
  intros Hopen Hk Hbefore Hfail. rewrite convertPdfToImages_spec, Hopen.
  destruct (Z.eqb_spec (doc_NumPage doc) 0); [lia |].
  destruct (forRange_split k (doc_NumPage doc) Hk) as [rest ->].
  destruct (rendering_stops env doc (forRange k) rest k err Hbefore Hfail) as [-> ->].
  now rewrite forRange_succ by lia.
Qed.

Lemma convertPdfToImages_stops_at_first_failure_witness :
  convertPdfToImages tornWorld Stub.pdfBytes
  = ([EvOpenDocument Stub.pdfBytes; EvNumPage; EvPageImage 0; EvPageImage 1;
      EvCloseDocument],
     Err (fmt_Errorf "failed to render page %d: %w"
            [ArgInt 2; ArgError (external_error "fitz: cannot render page")])).
Proof.
  apply (convertPdfToImages_stops_at_first_failure tornWorld Stub.pdfBytes tornDocument 1).
  - reflexivity.
  - cbn. lia.
  - repeat constructor.
  - reflexivity.
Defined.

(** X13: a document the parser returns has at least one page and empty
    metadata, and exactly one variant filled in: either type "text", with no
    image and a text that passes the threshold of the call, or type "images"
    with an empty text. *)
Theorem ParsePdfFromBuffer_returns_one_variant (env : Env) (buffer : list byte)
    (options : option ParseOptions) (parsed : ParsedPdf) :
  result (ParsePdfFromBuffer env buffer options) = Ok parsed ->
  1 <= NumPages parsed
  /\ Info parsed = ∅
  /\ ((Type_ (Content parsed) = "text"%string
       /\ ImageContent (Content parsed) = []
       /\ hasExtractableText (TextContent (Content parsed)) (resolveThreshold options)
          = true)
      \/ (Type_ (Content parsed) = "images"%string
          /\ TextContent (Content parsed) = EmptyString)).
Proof.
  unfold ParsePdfFromBuffer. destruct (negb (isValidPdfSignature buffer)); [discriminate |].
  rewrite bind_result, wrap_result, extractTextFromPdf_spec.
  pose proof (probedPageCount_positive env buffer) as Hpos.
  destruct (fitz_NewFromMemory env buffer) as [doc | err]; cbn [result snd].
  - destruct (hasExtractableText _ (resolveThreshold options)) eqn:Htext.
    + intros [= <-]. cbn. repeat split; try assumption. left. repeat split. exact Htext.
    + rewrite bind_result, wrap_result.
      destruct (result (convertPdfToImages env buffer)); [| discriminate].
      intros [= <-]. cbn. repeat split; try assumption. right. split; reflexivity.
  - destruct (hasExtractableText _ (resolveThreshold options)) eqn:Htext.
    + intros [= <-]. cbn. repeat split; try assumption. left. repeat split. exact Htext.
    + rewrite bind_result, wrap_result.
      destruct (result (convertPdfToImages env buffer)); [| discriminate].
      intros [= <-]. cbn. repeat split; try assumption. right. split; reflexivity.
Qed.

Lemma ParsePdfFromBuffer_returns_one_variant_witness :
  1 <= 1
  /\ hasExtractableText (Stub.longText +:+ nl) (resolveThreshold None) = true.
Proof.
  destruct (ParsePdfFromBuffer_returns_one_variant Stub.textWorld Stub.pdfBytes None
              {| Content := {| Type_ := "text"; TextContent := Stub.longText +:+ nl;
                               ImageContent := [] |};
                 NumPages := 1; Info := ∅ |}) as (H1 & _ & [(_ & _ & H3) | (H3 & _)]).
  - vm_compute. reflexivity.
  - split; [exact H1 | exact H3].
  - discriminate.
Defined.

(** Parsing from a path: the read of the file, then the parse of its bytes. *)
Lemma ParsePdfFromPath_spec (env : Env) (pdfPath : string)
    (options : option ParseOptions) :
  ParsePdfFromPath env pdfPath options
  = match os_ReadFile env pdfPath with
    | Ok data =>
        (EvReadFile pdfPath :: trace (ParsePdfFromBuffer env data options),
         result (ParsePdfFromBuffer env data options))
    | Err err =>
        ([EvReadFile pdfPath],
         Err (fmt_Errorf "failed to read PDF from path: %w" [ArgError err]))
    end.
Proof.
  unfold ParsePdfFromPath, call. destruct (os_ReadFile env pdfPath); reflexivity.
Qed.

(** X14: extracting from a path is reading the file and extracting from its
    bytes: when the schema is accepted and the file reads as [data], the
    extraction is the one of the request that gives [data] as its buffer,
    after the one read of the file. *)
Theorem Extract_from_path_is_from_bytes (env : Env) (e : Extractor)
    (options : ExtractionOptions) (data : list byte) :
  PDFPath options <> EmptyString ->
  ValidateSchema env (Schema options) = None ->
  os_ReadFile env (PDFPath options) = Ok data ->
  Extract env e options
  = (EvReadFile (PDFPath options) :: trace (Extract env e (withBuffer data options)),
     result (Extract env e (withBuffer data options))).
Proof.
  intros Hp Hschema Hread.
  rewrite (Extract_validated env e options) by (auto).
  rewrite (Extract_validated env e (withBuffer data options));
    [| right; discriminate | exact Hschema].
  unfold parseSource. rewrite (eqb_empty_false _ Hp). cbn [negb].
  cbn [PDFPath PDFBuffer withBuffer String.eqb negb].
  change (slice_bytes (Some data)) with data.
  rewrite ParsePdfFromPath_spec, Hread.
  destruct (ParsePdfFromBuffer env data (parseOptionsOf e)) as [t [parsed | err]];
    cbn [trace result fst snd wrap]; [| reflexivity].
  rewrite !bind_ok. reflexivity.
Qed.

Lemma Extract_from_path_is_from_bytes_witness :
  Extract diskWorld (Stub.extractorOf Stub.onlyModel) fromDisk
  = (EvReadFile "invoice.pdf"
       :: trace (Extract diskWorld (Stub.extractorOf Stub.onlyModel)
                   (withBuffer Stub.pdfBytes fromDisk)),
     result (Extract diskWorld (Stub.extractorOf Stub.onlyModel)
               (withBuffer Stub.pdfBytes fromDisk))).
Proof.
  apply (Extract_from_path_is_from_bytes diskWorld (Stub.extractorOf Stub.onlyModel)
           fromDisk Stub.pdfBytes).
  - discriminate.
  - reflexivity.
  - reflexivity.
Defined.

(** X15: a buffer that carries the signature but that the rendering library
    cannot open is not a text document: the text extractor hides the failure
    behind an empty text, the image conversion opens the buffer again, and
    the parser fails with that second failure, wrapped twice. *)
Theorem ParsePdfFromBuffer_unopenable (env : Env) (buffer : list byte)
    (options : option ParseOptions) (err : error) :
  isValidPdfSignature buffer = true ->
  fitz_NewFromMemory env buffer = Err err ->
  ParsePdfFromBuffer env buffer options
  = ([EvPDFInfo buffer; EvOpenDocument buffer; EvOpenDocument buffer],
     Err (fmt_Errorf "failed to convert PDF to images: %w"
            [ArgError (fmt_Errorf "failed to open PDF: %w" [ArgError err])])).
Proof.
  intros Hsig Hopen. unfold ParsePdfFromBuffer. rewrite Hsig. cbn [negb].
  rewrite extractTextFromPdf_spec, convertPdfToImages_spec, Hopen. reflexivity.
Qed.

Lemma ParsePdfFromBuffer_unopenable_witness :
  ParsePdfFromBuffer brokenWorld Stub.pdfBytes None
  = ([EvPDFInfo Stub.pdfBytes; EvOpenDocument Stub.pdfBytes; EvOpenDocument Stub.pdfBytes],
     Err (fmt_Errorf "failed to convert PDF to images: %w"
            [ArgError (fmt_Errorf "failed to open PDF: %w"
                         [ArgError (external_error "fitz: cannot open document")])])).
Proof.
  apply (ParsePdfFromBuffer_unopenable brokenWorld Stub.pdfBytes None); reflexivity.
Defined.

(** X16: when the page-count probe fails, or reports no positive count,
    the text extractor works with one page: it asks for the text of page 0
    only, whatever the number of pages of the document is. *)
Theorem extractTextFromPdf_unprobed_reads_first_page (env : Env) (buffer : list byte)
    (doc : Document) :
  (forall info, pdfcpu_PDFInfo env buffer = Ok (Some info) -> PageCount info <= 0) ->
  fitz_NewFromMemory env buffer = Ok doc ->
  extractTextFromPdf env buffer
  = ([EvPDFInfo buffer; EvOpenDocument buffer; EvPageText 0; EvCloseDocument],
     Ok (match doc_Text doc 0 with
         | Ok pageText => pageText +:+ nl
         | Err _ => EmptyString
         end, 1, ∅)).
Proof.
  intros Hprobe Hopen. rewrite extractTextFromPdf_spec, Hopen.
  assert (Hone : probedPageCount env buffer = 1).
  { unfold probedPageCount.
    destruct (pdfcpu_PDFInfo env buffer) as [[info |] | e]; try reflexivity.
    specialize (Hprobe info eq_refl).
    destruct (Z.gtb_spec (PageCount info) 0); [lia | reflexivity]. }
  rewrite Hone. cbn [forRange]. change (forRange 1) with [0].
  rewrite successfulPageTexts_cons. unfold unlines.
  destruct (doc_Text doc 0) as [pageText | e]; cbn [fold_right]; [| reflexivity].
  now rewrite string_app_nil_r.
Qed.

Lemma extractTextFromPdf_unprobed_reads_first_page_witness :
  extractTextFromPdf unprobedWorld Stub.pdfBytes
  = ([EvPDFInfo Stub.pdfBytes; EvOpenDocument Stub.pdfBytes; EvPageText 0;
      EvCloseDocument],
     Ok ("alpha" +:+ nl, 1, ∅)).
Proof.
  apply (extractTextFromPdf_unprobed_reads_first_page unprobedWorld Stub.pdfBytes
           (Stub.document Stub.threePages)).
  - intros info H. discriminate.
  - reflexivity.
Defined.

Lemma hasExtractableText_lower (text : string) (threshold threshold' : Z) :
  threshold' <= threshold ->
  hasExtractableText text threshold = true ->
  hasExtractableText text threshold' = true.
Proof.
  unfold hasExtractableText. destruct (String.eqb text ""); [discriminate |].
  rewrite !Z.geb_leb, !Z.leb_le. lia.
Qed.

(** X17: lowering the threshold keeps a text document a text document: if
    the parser returns type "text" at a threshold, it returns the same
    document, with the same calls, at any smaller positive threshold. *)
Theorem ParsePdfFromBuffer_lower_threshold (env : Env) (buffer : list byte)
    (threshold threshold' : Z) (parsed : ParsedPdf) :
  0 < threshold' <= threshold ->
  result (ParsePdfFromBuffer env buffer
            (Some {| ParseOptions_TextThreshold := threshold |})) = Ok parsed ->
  isTextMode parsed = true ->
  ParsePdfFromBuffer env buffer (Some {| ParseOptions_TextThreshold := threshold' |})
  = ParsePdfFromBuffer env buffer (Some {| ParseOptions_TextThreshold := threshold |}).
Proof.
  intros Hle. unfold ParsePdfFromBuffer, resolveThreshold. cbn [ParseOptions_TextThreshold].
  destruct (negb (isValidPdfSignature buffer)); [reflexivity |].
  destruct (Z.gtb_spec threshold 0); [| lia]. destruct (Z.gtb_spec threshold' 0); [| lia].
  destruct (wrap "failed to parse PDF: %w" (extractTextFromPdf env buffer))
    as [t [[[text numPages] info] | err]]; [| reflexivity].
  rewrite !bind_ok. cbn [result snd].
  destruct (hasExtractableText text threshold) eqn:Htext.
  - intros _ _. now rewrite (hasExtractableText_lower text threshold threshold') by (lia || assumption).
  - rewrite bind_result, wrap_result.
    destruct (result (convertPdfToImages env buffer)); [| discriminate].
    intros [= <-]. discriminate.
Qed.

Lemma ParsePdfFromBuffer_lower_threshold_witness :
  ParsePdfFromBuffer Stub.textWorld Stub.pdfBytes
    (Some {| ParseOptions_TextThreshold := 10 |})
  = ParsePdfFromBuffer Stub.textWorld Stub.pdfBytes
      (Some {| ParseOptions_TextThreshold := 100 |}).
Proof.
  apply (ParsePdfFromBuffer_lower_threshold Stub.textWorld Stub.pdfBytes 100 10
           {| Content := {| Type_ := "text"; TextContent := Stub.longText +:+ nl;
                            ImageContent := [] |};
              NumPages := 1; Info := ∅ |}).
  - lia.
  - vm_compute. reflexivity.
  - reflexivity.
Defined.

Lemma calls_fmap_none {A} (kind : event -> bool) (f : A -> event) (l : list A) :
  (forall a, kind (f a) = false) -> calls kind (f <$> l) = 0%nat.
Proof.
  intros H. unfold calls. induction l as [| a l IH]; [reflexivity |].
  cbn. now rewrite H.
Qed.

Lemma closeDocument_calls (doc : Document) :
  calls is_close_document (closeDocument doc) = 1%nat
  /\ calls is_open_document (closeDocument doc) = 0%nat.
Proof. unfold closeDocument. destruct (doc_Close doc); split; reflexivity. Qed.

(** X18: the parser closes every document it opens: when the rendering
    library opens the buffer, the calls of the parser hold as many closes as
    opens (one pair for the text, one more for the images); when it cannot,
    nothing is closed. *)
Theorem ParsePdfFromBuffer_closes_documents (env : Env) (buffer : list byte)
    (options : option ParseOptions) :
  calls is_close_document (trace (ParsePdfFromBuffer env buffer options))
  = if is_ok (fitz_NewFromMemory env buffer) then
      calls is_open_document (trace (ParsePdfFromBuffer env buffer options))
    else 0%nat.
Proof.
  unfold ParsePdfFromBuffer.
  destruct (negb (isValidPdfSignature buffer));
    [now destruct (is_ok (fitz_NewFromMemory env buffer)) |].
  rewrite bind_trace, wrap_trace, wrap_result, extractTextFromPdf_spec.
  destruct (fitz_NewFromMemory env buffer) as [doc | err] eqn:Hopen;
    cbn [is_ok trace result fst snd].
  - rewrite !calls_app, !(calls_fmap_none _ EvPageText) by reflexivity.
    destruct (hasExtractableText _ (resolveThreshold options)); [reflexivity |].
    rewrite bind_trace, wrap_trace, convertPdfToImages_spec, Hopen.
    destruct (closeDocument_calls doc) as [Hc Ho].
    destruct (doc_NumPage doc =? 0); cbn [trace result fst snd];
      [destruct (result _) | destruct (renderedPages env doc _)];
      rewrite !calls_app, ?(calls_fmap_none _ EvPageImage) by reflexivity;
      rewrite ?Hc, ?Ho; reflexivity.
  - cbn [hasExtractableText String.eqb].
    rewrite bind_trace, wrap_trace, convertPdfToImages_spec, Hopen. reflexivity.
Qed.

(** X19: [ValidatePdf] never fails and looks at the signature only: it
    reads the named file, or nothing at all, and answers true exactly when
    the bytes it is given, or reads, start with [%PDF]; an unreadable file and
    a value of another type are invalid. *)
Theorem ValidatePdf_checks_signature_only (env : Env) (input : PdfInput) :
  exists valid,
    ValidatePdf env input
    = (match input with InputString v => [EvReadFile v] | _ => [] end, Ok valid)
    /\ (valid = true
        <-> exists data,
              (input = InputBytes data
               \/ exists v, input = InputString v /\ os_ReadFile env v = Ok data)
              /\ firstn 4 data = pdfSignature).
Proof.
  destruct input as [v | data |]; cbn [ValidatePdf].
  - unfold recover, call. cbn [fst snd]. rewrite bind_ok.
    destruct (os_ReadFile env v) as [data | err] eqn:Hread.
    + exists (isValidPdfSignature data). split; [reflexivity |].
      rewrite isValidPdfSignature_spec. split.
      * intros Hsig. exists data. split; [right; eauto | exact Hsig].
      * intros (data' & [[=] | (v' & [= <-] & Hread')] & Hsig).
        rewrite Hread in Hread'. now injection Hread' as <-.
    + exists false. split; [reflexivity |]. split; [discriminate |].
      intros (data' & [[=] | (v' & [= <-] & Hread')] & _).
      rewrite Hread in Hread'. discriminate.
  - exists (isValidPdfSignature data). split; [reflexivity |].
    rewrite isValidPdfSignature_spec. split.
    + intros Hsig. exists data. split; [now left | exact Hsig].
    + intros (data' & [[= <-] | (v & [=] & _)] & Hsig). exact Hsig.
  - exists false. split; [reflexivity |]. split; [discriminate |].
    intros (data & [[=] | (v & [=] & _)] & _).
Qed.

(* ===================================================================== *)
(** * The request builder: payload fields and messages                    *)
(* ===================================================================== *)

Lemma append_image_blocks (images : list PdfPageImage) (content : list (gmap string json)) :
  fold_left (fun content img => content ++ [imageBlock img]) images content
  = content ++ (imageBlock <$> images).
Proof.
  revert content. induction images as [| img images IH]; intros content.
  - cbn. now rewrite app_nil_r.
  - cbn [fold_left fmap list_fmap]. rewrite IH, <- app_assoc. reflexivity.
Qed.

(** X20: the content of a vision request is the instruction block followed
    by one image block per page image, in the order of the pages, each
    carrying the base64 of its page as a PNG data URI. *)
Theorem visionContent_one_block_per_page (images : list PdfPageImage) :
  visionContent images = instructionBlock :: (imageBlock <$> images)
  /\ length (visionContent images) = S (length images)
  /\ forall (i : nat) (img : PdfPageImage),
       images !! i = Some img -> visionContent images !! S i = Some (imageBlock img).
Proof.
  assert (H : visionContent images = instructionBlock :: (imageBlock <$> images)).
  { unfold visionContent. apply (append_image_blocks images [instructionBlock]). }
  rewrite H. split; [reflexivity |]. split.
  - cbn. now rewrite length_fmap.
  - intros i img Hi. change ((imageBlock <$> images) !! i = Some (imageBlock img)).
    rewrite list_lookup_fmap, Hi. reflexivity.
Qed.

Lemma visionContent_one_block_per_page_witness :
  visionContent [onePage] !! 1%nat = Some (imageBlock onePage).
Proof.
  destruct (visionContent_one_block_per_page [onePage]) as (_ & _ & H).
  apply (H 0%nat onePage). reflexivity.
Defined.

Lemma addOptionalParameters_lookup (options : ExtractionOptions)
    (requestBody : gmap string json) (key : string) :
  addOptionalParameters options requestBody !! key
  = if decide (key = "max_tokens"%string) then
      match MaxTokens options with
      | Some n => Some (JInt n)
      | None =>
          (<["temperature"%string :=
               JFloat (default 0%float (Temperature options))]> requestBody) !! key
      end
    else
      (<["temperature"%string :=
           JFloat (default 0%float (Temperature options))]> requestBody) !! key.
Proof.
  unfold addOptionalParameters.
  destruct (Temperature options) as [t |], (MaxTokens options) as [n |];
    cbn [default from_option id]; destruct (decide (key = "max_tokens"%string)) as [-> | Hk];
    rewrite ?lookup_insert_eq, ?(lookup_insert_ne _ "max_tokens"%string key) by congruence;
    reflexivity.
Qed.

(** X21: a payload has the model of its mode (the text model in text mode,
    the vision model in vision mode), the messages of its mode (the system
    message when the resolved system instruction is not empty, then the user
    message), the response format that names the caller's schema as a strict
    structured output, a temperature in every case (the caller's, else 0.0),
    a maximum token count exactly when the caller gives one, and no other
    field. *)
Theorem requestBody_fields (e : Extractor) (text : string) (images : list PdfPageImage)
    (schemaData : option (gmap string json)) (options : ExtractionOptions) :
  let textBody := textRequestBody e text schemaData options in
  let visionBody := visionRequestBody e images schemaData options in
  let system :=
    if String.eqb (systemPrompt e) "" then [] else [systemMessage (systemPrompt e)] in
  textBody !! "model"%string = Some (JString (textModel e))
  /\ visionBody !! "model"%string = Some (JString (visionModel e))
  /\ textBody !! "messages"%string = Some (JArray (system ++ [userTextMessage text]))
  /\ visionBody !! "messages"%string
     = Some (JArray (system ++ [userVisionMessage images]))
  /\ (forall body, body = textBody \/ body = visionBody ->
        body !! "response_format"%string = Some (structuredOutput schemaData)
        /\ body !! "temperature"%string
           = Some (JFloat (default 0%float (Temperature options)))
        /\ body !! "max_tokens"%string = JInt <$> MaxTokens options
        /\ forall key : string,
             key <> "model"%string -> key <> "messages"%string ->
             key <> "response_format"%string -> key <> "temperature"%string ->
             key <> "max_tokens"%string ->
             body !! key = None).
Proof.
  cbn zeta. unfold textRequestBody, visionRequestBody.
  split; [now rewrite addOptionalParameters_lookup |].
  split; [now rewrite addOptionalParameters_lookup |].
  split.
  { rewrite addOptionalParameters_messages.
    rewrite lookup_insert_ne by discriminate. rewrite lookup_insert_eq.
    unfold textMessages. destruct (String.eqb (systemPrompt e) ""); reflexivity. }
  split.
  { rewrite addOptionalParameters_messages.
    rewrite lookup_insert_ne by discriminate. rewrite lookup_insert_eq.
    assert (H : visionContent images = instructionBlock :: (imageBlock <$> images)).
    { unfold visionContent. apply (append_image_blocks images [instructionBlock]). }
    unfold visionMessages, userVisionMessage. rewrite H.
    destruct (String.eqb (systemPrompt e) ""); reflexivity. }
  assert (Hformat : responseFormat schemaData = structuredOutput schemaData).
  { unfold responseFormat, structuredOutput, json_of_map.
    destruct schemaData; reflexivity. }
  intros body [-> | ->];
    (split; [rewrite addOptionalParameters_lookup; cbn [decide];
             rewrite <- Hformat; reflexivity |]);
    (split; [now rewrite addOptionalParameters_lookup, lookup_insert_eq |]);
    (split; [rewrite addOptionalParameters_lookup;
             destruct (MaxTokens options); reflexivity |]);
    intros key H1 H2 H3 H4 H5; rewrite addOptionalParameters_lookup;
    destruct (decide (key = "max_tokens"%string)); [contradiction | | contradiction |];
    rewrite !lookup_insert_ne by congruence; apply lookup_singleton_ne; congruence.
Qed.

Lemma requestBody_fields_witness :
  textRequestBody (Stub.extractorOf Stub.onlyModel) Stub.longText Stub.objectSchema tuned
    !! "max_tokens"%string = Some (JInt 2000)
  /\ textRequestBody (Stub.extractorOf Stub.onlyModel) Stub.longText Stub.objectSchema
       tuned !! "response_format"%string = Some (structuredOutput Stub.objectSchema)
  /\ textRequestBody (Stub.extractorOf Stub.onlyModel) Stub.longText Stub.objectSchema
       tuned !! "top_p"%string = None.
Proof.
  destruct (requestBody_fields (Stub.extractorOf Stub.onlyModel) Stub.longText []
              Stub.objectSchema tuned) as (_ & _ & _ & _ & H).
  destruct (H (textRequestBody (Stub.extractorOf Stub.onlyModel) Stub.longText
                 Stub.objectSchema tuned)) as (H1 & _ & H3 & H4); [now left |].
  split; [exact H3 |]. split; [exact H1 |]. apply H4; discriminate.
Defined.

(** X22: the messages of a payload are the system message, when the
    resolved system instruction is not empty, followed by the user message,
    which comes last: in text mode the fixed instruction, a blank line and the
    whole extracted text; in vision mode the content blocks of the pages. *)
Theorem requestMessages_shape (e : Extractor) (text : string) (images : list PdfPageImage)
    (schemaData : option (gmap string json)) (options : ExtractionOptions) :
  requestMessages (textRequestBody e text schemaData options)
  = (if String.eqb (systemPrompt e) "" then []
     else [systemMessage (systemPrompt e)]) ++ [userTextMessage text]
  /\ requestMessages (visionRequestBody e images schemaData options)
     = (if String.eqb (systemPrompt e) "" then []
        else [systemMessage (systemPrompt e)]) ++ [userVisionMessage images].
Proof.
  rewrite textRequestBody_messages, visionRequestBody_messages.
  unfold textMessages, visionMessages, userVisionMessage.
  assert (H : visionContent images = instructionBlock :: (imageBlock <$> images)).
  { unfold visionContent. apply (append_image_blocks images [instructionBlock]). }
  rewrite H. destruct (String.eqb (systemPrompt e) ""); split; reflexivity.
Qed.

(* ===================================================================== *)
(** * What the parser never does                                          *)
(* ===================================================================== *)

(** X23: the parser works offline: the text extractor, the image
    conversion and the two parse entry points never call the completion
    endpoint, whatever the document and the libraries answer. *)
Theorem parser_makes_no_network_call (env : Env) (buffer : list byte) (pdfPath : string)
    (options : option ParseOptions) :
  network_free (trace (extractTextFromPdf env buffer))
  /\ network_free (trace (convertPdfToImages env buffer))
  /\ network_free (trace (ParsePdfFromBuffer env buffer options))
  /\ network_free (trace (ParsePdfFromPath env pdfPath options)).
Proof.
  split; [apply extractTextFromPdf_network_free |].
  split; [apply convertPdfToImages_network_free |].
  split; [apply ParsePdfFromBuffer_network_free | apply ParsePdfFromPath_network_free].
Qed.

(** X24: pages are rendered only when the text is judged insufficient: a
    parse that returns a text document opened the document once, for its
    text, and rendered no page. *)
Theorem ParsePdfFromBuffer_text_renders_nothing (env : Env) (buffer : list byte)
    (options : option ParseOptions) (parsed : ParsedPdf) :
  result (ParsePdfFromBuffer env buffer options) = Ok parsed ->
  isTextMode parsed = true ->
  calls is_page_image (trace (ParsePdfFromBuffer env buffer options)) = 0%nat
  /\ calls is_open_document (trace (ParsePdfFromBuffer env buffer options)) = 1%nat
  /\ trace (ParsePdfFromBuffer env buffer options) = trace (extractTextFromPdf env buffer).
Proof.
  unfold ParsePdfFromBuffer. destruct (negb (isValidPdfSignature buffer)); [discriminate |].
  rewrite bind_trace, bind_result, wrap_trace, wrap_result, extractTextFromPdf_spec.
  destruct (fitz_NewFromMemory env buffer) as [doc | err]; cbn [trace result fst snd].
  - destruct (hasExtractableText _ (resolveThreshold options)).
    + intros _ _. rewrite app_nil_r, !calls_app.
      rewrite !(calls_fmap_none _ EvPageText) by reflexivity. repeat split.
    + rewrite bind_result, wrap_result.
      destruct (result (convertPdfToImages env buffer)); [| discriminate].
      intros [= <-]. discriminate.
  - cbn [hasExtractableText String.eqb]. rewrite bind_result, wrap_result.
    destruct (result (convertPdfToImages env buffer)); [| discriminate].
    intros [= <-]. discriminate.
Qed.

Lemma ParsePdfFromBuffer_text_renders_nothing_witness :
  calls is_page_image (trace (ParsePdfFromBuffer Stub.textWorld Stub.pdfBytes None)) = 0%nat
  /\ calls is_open_document (trace (ParsePdfFromBuffer Stub.textWorld Stub.pdfBytes None))
     = 1%nat.
Proof.
  destruct (ParsePdfFromBuffer_text_renders_nothing Stub.textWorld Stub.pdfBytes None
              {| Content := {| Type_ := "text"; TextContent := Stub.longText +:+ nl;
                               ImageContent := [] |};
                 NumPages := 1; Info := ∅ |}) as (H1 & H2 & _).
  - vm_compute. reflexivity.
  - reflexivity.
  - split; [exact H1 | exact H2].
Defined.
